(** * node-jwt: bearer-token verification and issuance against a keystore

    A shallow embedding of the two implementations found in the
    repository, [src/auth.js] (module [Auth]) and its older sibling
    (module [Legacy]), followed by the properties of the key-selection
    and verification algorithm.

    The [jsonwebtoken] package is an external collaborator.  It is taken
    as a record of three operations ([JwtLib]); every general theorem
    quantifies over that record.  [TestJwt] is a small executable
    stand-in used to run the engine on concrete inputs. *)

From Stdlib Require Import String Ascii List Bool ZArith Lia DecimalString.
From Stdlib Require Import Permutation.
Import ListNotations.
Local Open Scope string_scope.
Local Open Scope list_scope.

Set Implicit Arguments.

(* ================================================================== *)
(** ** JavaScript values used by the code *)

(** [if (s)] on a string: the empty string is falsy. *)
Definition truthy (s : string) : bool :=
  match s with
  | EmptyString => false
  | String _ _ => true
  end.

(** [if (x)] on a value that is either [undefined] or a string. *)
Definition truthy_opt (x : option string) : bool :=
  match x with
  | Some s => truthy s
  | None => false
  end.

(** [a || b] on such values. *)
Definition js_or (a b : option string) : option string :=
  if truthy_opt a then a else b.

(** [s.split(sep)] for a one-character separator. *)
Fixpoint split (sep : ascii) (s : string) : list string :=
  match s with
  | EmptyString => [EmptyString]
  | String c rest =>
      if Ascii.eqb c sep then EmptyString :: split sep rest
      else match split sep rest with
           | [] => [String c EmptyString]
           | w :: ws => String c w :: ws
           end
  end.

Definition lower_ascii (c : ascii) : ascii :=
  let n := nat_of_ascii c in
  if andb (Nat.leb 65 n) (Nat.leb n 90) then ascii_of_nat (n + 32) else c.

(** [s.toLowerCase()] on ASCII text. *)
Fixpoint toLowerCase (s : string) : string :=
  match s with
  | EmptyString => EmptyString
  | String c rest => String (lower_ascii c) (toLowerCase rest)
  end.

(** A call either returns or throws. *)
Inductive Completion (E A : Type) : Type :=
| Return (a : A)
| Throw (e : E).
Arguments Return {E A} a.
Arguments Throw {E A} e.

(* ================================================================== *)
(** ** Data model *)

Inductive Json : Type :=
| JNum (n : Z)
| JStr (s : string).

(** A token payload: the claims object, in property order. *)
Definition Payload : Type := list (string * Json).

Fixpoint claim (name : string) (p : Payload) : option Json :=
  match p with
  | [] => None
  | (n, v) :: rest => if String.eqb n name then Some v else claim name rest
  end.

Record Header : Type := { kid : option string }.

(** Result of [jwt.decode(token, { complete: true })]. *)
Record Decoded : Type := { header : Header; payload : Payload }.

(** An [Error] object thrown by the library. *)
Record JsError : Type := { name : string; message : string }.

(** Options handed to [jwt.verify]. *)
Record JwtOptions : Type := {
  algorithms : list string;
  maxAge : option string
}.

(** Options handed to [jwt.sign]: [{ algorithm, header: { kid } }]. *)
Record SignOptions : Type := {
  algorithm : option string;
  header_kid : option string
}.

Definition KeyMaterial : Type := string.

(** What [keystore[name]] can yield besides [undefined], and so what the
    code can hand to the library as a key: the key material of an
    entry, or the property of that name which every object inherits
    from [Object.prototype] (a function, or under [__proto__] the
    prototype itself). *)
Inductive KeyValue : Type :=
| Material (m : KeyMaterial)
| Inherited (name : string).

(** The operations of [jsonwebtoken] that the code calls.  [jwt_decode]
    yields [None] where the library returns [null]; a thrown error is an
    [inr].  The library refuses a key that is a function or a plain
    object: [jwt_verify_refusal] and [jwt_sign_refusal] are the errors
    [jwt.verify] and [jwt.sign] throw when the key is the inherited
    property of the given name. *)
Record JwtLib : Type := {
  jwt_decode : string -> option Decoded;
  jwt_verify : string -> KeyMaterial -> JwtOptions -> Payload + JsError;
  jwt_sign : Payload -> option KeyMaterial -> SignOptions -> string + JsError;
  jwt_verify_refusal : string -> string -> JwtOptions -> JsError;
  jwt_sign_refusal : Payload -> string -> SignOptions -> JsError
}.

(** A keystore object: its own enumerable properties, in the order of
    [Object.keys] and [for ... in].  It is an ordinary object: behind
    its entries stand the properties of [Object.prototype], among them
    the [hasOwnProperty] that the code calls on it. *)
Definition Keystore : Type := list (string * KeyMaterial).

(** The entry the keystore itself holds under [id], if any: what
    [keystore[id]] yields when [id] is one of [Object.keys(keystore)]. *)
Fixpoint lookup (id : string) (ks : Keystore) : option KeyMaterial :=
  match ks with
  | [] => None
  | (k, v) :: rest => if String.eqb k id then Some v else lookup id rest
  end.

(** The entry a caller asks for by identifier, when it asks for one:
    "the requested identifier if present in the keystore", as the
    specification has it.  The code reads [keystore[kid]], which is
    [read] below. *)
Definition lookup_opt (id : option string) (ks : Keystore)
  : option KeyMaterial :=
  match id with
  | Some k => lookup k ks
  | None => None
  end.

(** [Object.keys(keystore)]. *)
Definition keys (ks : Keystore) : list string := map fst ks.

(** The property names of [Object.prototype]. *)
Definition object_prototype_names : list string :=
  ["constructor"; "hasOwnProperty"; "isPrototypeOf"; "propertyIsEnumerable";
   "toLocaleString"; "toString"; "valueOf"; "__proto__";
   "__defineGetter__"; "__defineSetter__";
   "__lookupGetter__"; "__lookupSetter__"].

Definition inherited (name : string) : bool :=
  existsb (String.eqb name) object_prototype_names.

(** The property an index expression names: a property name is a
    string, so an [undefined] index names the property ["undefined"]. *)
Definition property_name (id : option string) : string :=
  match id with
  | Some k => k
  | None => "undefined"
  end.

(** [keystore[id]]: an entry of the keystore comes before an inherited
    property of the same name. *)
Definition read (id : option string) (ks : Keystore) : option KeyValue :=
  let name := property_name id in
  match lookup name ks with
  | Some m => Some (Material m)
  | None => if inherited name then Some (Inherited name) else None
  end.

(** [if (key)] on what [keystore[id]] gave: functions and objects are
    truthy. *)
Definition truthy_value (v : option KeyValue) : bool :=
  match v with
  | Some (Material m) => truthy m
  | Some (Inherited _) => true
  | None => false
  end.

(** [a || b] on such values. *)
Definition or_value (a b : option KeyValue) : option KeyValue :=
  if truthy_value a then a else b.

(** [a === b] on such values. *)
Definition same_value (a b : option KeyValue) : bool :=
  match a, b with
  | Some (Material x), Some (Material y) => String.eqb x y
  | Some (Inherited n), Some (Inherited m) => String.eqb n m
  | None, None => true
  | _, _ => false
  end.

(** [jwt.verify(token, key, options)] for any key the code can pass. *)
Definition verify_call (J : JwtLib) (tok : string) (key : KeyValue)
           (o : JwtOptions) : Payload + JsError :=
  match key with
  | Material m => jwt_verify J tok m o
  | Inherited n => inr (jwt_verify_refusal J tok n o)
  end.

(** [jwt.sign(payload, key, options)] for any key the code can pass. *)
Definition sign_call (J : JwtLib) (p : Payload) (key : option KeyValue)
           (o : SignOptions) : string + JsError :=
  match key with
  | Some (Material m) => jwt_sign J p (Some m) o
  | Some (Inherited n) => inr (jwt_sign_refusal J p n o)
  | None => jwt_sign J p None o
  end.

(** The invariants of a keystore: one entry per identifier, identifiers
    and key material non-empty. *)
Definition wf_keystore (ks : Keystore) : Prop :=
  NoDup (keys ks) /\
  forall id key, In (id, key) ks -> id <> EmptyString /\ key <> EmptyString.

(** [process.env], restricted to the variables the code reads. *)
Record Env : Type := {
  MAX_JWT_AGE : option string;
  REQUIRE_AUTH : option string;
  NODE_ENV : option string
}.

Record Query : Type := { token : option string }.
Record Headers : Type := { authorization : option string }.
Record Request : Type := { query : option Query; headers : option Headers }.

(** Modelled from the spec: the [UnauthorizedError] class
    ([./unauthorizedError]) is not among the sources.  Its two call
    shapes, [new UnauthorizedError(message)] and
    [new UnauthorizedError(cause, message)], are kept apart; the names
    below are the failure kinds of the error taxonomy. *)
Inductive UnauthorizedError : Type :=
| Unauthorized (msg : string)
| UnauthorizedCause (cause : JsError) (msg : string).

Definition MalformedAuthorizationHeader : UnauthorizedError :=
  Unauthorized "Format is Authorization: Bearer [token]".
Definition NoMatchingKey : UnauthorizedError :=
  Unauthorized "Verification Error: No matching keys".
Definition VerificationError (cause : JsError) : UnauthorizedError :=
  UnauthorizedCause cause "Verification Error".
Definition SigningError (cause : JsError) : UnauthorizedError :=
  UnauthorizedCause cause "Token signing failed".

(** What a verifier hands back in its first slot: a string literal or
    the caught error. *)
Inductive VerifierError : Type :=
| ErrString (s : string)
| ErrThrown (e : JsError).

(** [error.message && error.message !== "invalid signature"] *)
Definition fatal_message (m : string) : bool :=
  andb (truthy m) (negb (String.eqb m "invalid signature")).

(** [error && error.message && error.message !== "invalid signature"]:
    a string literal has no [message]. *)
Definition fatal (error : option VerifierError) : option JsError :=
  match error with
  | Some (ErrThrown e) => if fatal_message (message e) then Some e else None
  | _ => None
  end.

(** The calls of [jwt.verify], in order: the key and the options each
    call was given. *)
Definition Attempts : Type := list (KeyValue * JwtOptions).

(** Anything that can reach an Express error handler: a failure raised
    by this module, or some other error object. *)
Inductive Failure : Type :=
| AuthFailure (e : UnauthorizedError)
| OtherFailure (e : JsError).

(** Modelled from the spec: the [UnauthorizedError] class is not among
    the sources; its instances form the one error category that the
    handler routes to a 401, which the handler recognises by
    [err.name === "UnauthorizedError"]. *)
Definition failure_name (f : Failure) : string :=
  match f with
  | AuthFailure _ => "UnauthorizedError"
  | OtherFailure e => name e
  end.

(** The part of an Express response the code writes: the status set by
    [response.status] and the body [{ errors }] set by [response.json]. *)
Record Response : Type := {
  status : option nat;
  errors : option Failure
}.

(** What a verifier returns: [[error, payload, kid]]. *)
Record VerifierResult : Type := {
  v_error : option VerifierError;
  v_payload : option Payload;
  v_kid : option string
}.

Definition succeeded (p : Payload) (k : string) : VerifierResult :=
  {| v_error := None; v_payload := Some p; v_kid := Some k |}.

Definition failed (e : VerifierError) : VerifierResult :=
  {| v_error := Some e; v_payload := None; v_kid := None |}.

(** [let error, payload, kid;] *)
Definition nothing_yet : VerifierResult :=
  {| v_error := None; v_payload := None; v_kid := None |}.

Definition query_token (req : Request) : option string :=
  match query req with
  | Some q => token q
  | None => None
  end.

Definition authorization_header (req : Request) : option string :=
  match headers req with
  | Some h => authorization h
  | None => None
  end.

Definition is_production (env : Env) : bool :=
  match NODE_ENV env with
  | Some v => String.eqb v "production"
  | None => false
  end.

(** [keystore[k] === key], where [key] may be [undefined]. *)
Definition same_material (a b : option KeyMaterial) : bool :=
  match a, b with
  | Some x, Some y => String.eqb x y
  | None, None => true
  | _, _ => false
  end.

(* ================================================================== *)
(** ** [src/auth.js] *)

Module Auth.

Definition extractToken (req : Request)
  : Completion UnauthorizedError (option string) :=
  if truthy_opt (query_token req) then Return (query_token req)
  else match authorization_header req with
       | Some a =>
           if truthy a then
             match split " " a with
             | [scheme; credentials] =>
                 if String.eqb scheme "Bearer" then Return (Some credentials)
                 else Throw MalformedAuthorizationHeader
             | _ => Throw MalformedAuthorizationHeader
             end
           else Return None
       | None => Return None
       end.

(** The [switch (purpose)] that fixes the permitted algorithms. *)
Definition algorithms_for (purpose : string) : list string :=
  if String.eqb purpose "local" then ["HS512"]
  else if String.eqb purpose "public" then ["ES512"]
  else [].

(** [jwtOptions]: [maxAge] is assigned only when the token decodes to a
    payload without an [exp] claim. *)
Definition jwtOptions (env : Env) (purpose : string) (decoded : option Decoded)
  : JwtOptions :=
  {| algorithms := algorithms_for purpose;
     maxAge := match decoded with
               | Some d => match claim "exp" (payload d) with
                           | None => MAX_JWT_AGE env
                           | Some _ => None
                           end
               | None => None
               end |}.

Section Engine.
Variable J : JwtLib.
Variable env : Env.

Section Verifiers.
Variable tok : string.
Variable keystore : Keystore.
Variable decoded : option Decoded.
Variable opts : JwtOptions.

(** One guarded call of [jwt.verify(token, key, jwtOptions)]. *)
Definition try_key (key : KeyValue) (k : string)
  : VerifierResult * Attempts :=
  match verify_call J tok key opts with
  | inl p => (succeeded p k, [(key, opts)])
  | inr e => (failed (ErrThrown e), [(key, opts)])
  end.

Definition verifyWithKid (_ : unit) : VerifierResult * Attempts :=
  let kid_failed := (failed (ErrString "kid verification failed"), []) in
  match decoded with
  | Some d =>
      match kid (header d) with
      | Some k =>
          if truthy k then
            match read (Some k) keystore with
            | Some key =>
                if truthy_value (Some key) then try_key key k else kid_failed
            | None => kid_failed
            end
          else kid_failed
      | None => kid_failed
      end
  | None => kid_failed
  end.

Definition verifyWithDefault (_ : unit) : VerifierResult * Attempts :=
  match read (Some "default") keystore with
  | Some key =>
      if truthy_value (Some key) then try_key key "default"
      else (failed (ErrString "default verification failed"), [])
  | None => (failed (ErrString "default verification failed"), [])
  end.

(** The [for (const kid in keystore)] loop: a key that throws is
    skipped, whatever it threw. *)
Fixpoint scan (entries : Keystore) : VerifierResult * Attempts :=
  match entries with
  | [] => (failed (ErrString "all verification failed"), [])
  | (k, key) :: rest =>
      if negb (String.eqb k "default") then
        match verify_call J tok (Material key) opts with
        | inl p => (succeeded p k, [(Material key, opts)])
        | inr _ => let (r, l) := scan rest in (r, (Material key, opts) :: l)
        end
      else scan rest
  end.

Definition verifyWithKeystore (_ : unit) : VerifierResult * Attempts :=
  scan keystore.

Definition verifiers : list (unit -> VerifierResult * Attempts) :=
  [verifyWithKid; verifyWithDefault; verifyWithKeystore].
End Verifiers.

(** The [for (const verifier of verifiers)] loop.  [last] holds the
    variables [error, payload, kid] as the previous round left them. *)
Fixpoint run_verifiers (vs : list (unit -> VerifierResult * Attempts))
         (last : VerifierResult)
  : Completion UnauthorizedError VerifierResult * Attempts :=
  match vs with
  | [] => (Return last, [])
  | verifier :: rest =>
      let (r, tried) := verifier tt in
      match fatal (v_error r) with
      | Some e => (Throw (VerificationError e), tried)
      | None =>
          match v_payload r with
          | Some _ => (Return r, tried)
          | None => let (c, later) := run_verifiers rest r in
                    (c, tried ++ later)
          end
      end
  end.

Definition default_purpose (purpose : option string) : string :=
  match purpose with
  | Some p => p
  | None => "local"
  end.

Definition verifyTokenAndReturnPayloadAndKid
           (tok : string) (keystore : Keystore) (purpose : option string)
  : Completion UnauthorizedError (Payload * option string) * Attempts :=
  let decoded := jwt_decode J tok in
  let opts := jwtOptions env (default_purpose purpose) decoded in
  let (c, tried) :=
    run_verifiers (verifiers tok keystore decoded opts) nothing_yet in
  match c with
  | Throw e => (Throw e, tried)
  | Return r =>
      match v_payload r with
      | Some p => (Return (p, v_kid r), tried)
      | None => (Throw NoMatchingKey, tried)
      end
  end.

Definition verifyTokenAndReturnKid
           (tok : string) (keystore : Keystore) (purpose : option string)
  : Completion UnauthorizedError (option string) * Attempts :=
  match verifyTokenAndReturnPayloadAndKid tok keystore purpose with
  | (Return (_, k), tried) => (Return k, tried)
  | (Throw e, tried) => (Throw e, tried)
  end.

Definition verifyToken
           (tok : string) (keystore : Keystore) (purpose : option string)
  : Completion UnauthorizedError Payload * Attempts :=
  match verifyTokenAndReturnPayloadAndKid tok keystore purpose with
  | (Return (p, _), tried) => (Return p, tried)
  | (Throw e, tried) => (Throw e, tried)
  end.

Definition required : bool :=
  match REQUIRE_AUTH env with
  | Some flag =>
      if truthy flag then
        andb (negb (String.eqb (toLowerCase flag) "false"))
             (negb (String.eqb flag "0"))
      else is_production env
  | None => is_production env
  end.

(** [res.locals]; a field is [None] until it is assigned, and
    [JWTPayload] holds [Some None] when [jwt.decode] gave [null]. *)
Record Locals : Type := {
  JWTPayload : option (option Payload);
  JWTVerifyingKid : option string
}.

Definition no_locals : Locals :=
  {| JWTPayload := None; JWTVerifyingKid := None |}.

(** How the middleware ends: the argument of [next], [res.locals], and
    the calls of [jwt.verify] that were made. *)
Record Outcome : Type := {
  next_error : option UnauthorizedError;
  locals : Locals;
  tried_keys : Attempts
}.

Definition _authMiddleware
           (keystore : Keystore) (isRequired : bool) (purpose : option string)
           (req : Request) (res : Locals) : Outcome :=
  match extractToken req with
  | Throw err => {| next_error := Some err; locals := res; tried_keys := [] |}
  | Return t =>
      match t with
      | Some tok =>
          if truthy tok then
            let res1 :=
              {| JWTPayload := Some (option_map payload (jwt_decode J tok));
                 JWTVerifyingKid := JWTVerifyingKid res |} in
            if isRequired then
              match verifyTokenAndReturnKid tok keystore purpose with
              | (Return k, tried) =>
                  {| next_error := None;
                     locals := {| JWTPayload := JWTPayload res1;
                                  JWTVerifyingKid := k |};
                     tried_keys := tried |}
              | (Throw err, tried) =>
                  {| next_error := Some err; locals := res1;
                     tried_keys := tried |}
              end
            else {| next_error := None; locals := res1; tried_keys := [] |}
          else if isRequired then
            {| next_error := Some (Unauthorized "JWT is required");
               locals := res; tried_keys := [] |}
          else {| next_error := None; locals := res; tried_keys := [] |}
      | None =>
          if isRequired then
            {| next_error := Some (Unauthorized "JWT is required");
               locals := res; tried_keys := [] |}
          else {| next_error := None; locals := res; tried_keys := [] |}
      end
  end.

(** [keystore[kid] || keystore.default || keystore[Object.keys(keystore)[0]]] *)
Definition signing_key (keystore : Keystore) (requested : option string)
  : option KeyValue :=
  or_value (read requested keystore)
           (or_value (read (Some "default") keystore)
                     (read (hd_error (keys keystore)) keystore)).

(** [Object.keys(keystore).find(k => keystore[k] === key)] *)
Definition signingKid (keystore : Keystore) (key : option KeyValue)
  : option string :=
  find (fun k => same_value (read (Some k) keystore) key) (keys keystore).

Definition createToken (p : Payload) (keystore : Keystore)
           (requested : option string) (alg : option string)
  : Completion UnauthorizedError string :=
  let algorithm := match alg with Some a => a | None => "HS512" end in
  let key := signing_key keystore requested in
  match sign_call J p key
                 {| algorithm := Some algorithm;
                    header_kid := signingKid keystore key |} with
  | inl t => Return t
  | inr err => Throw (SigningError err)
  end.
End Engine.

(** [lookupKey(kid, keystoreBuilder)]: [keystore[kid]]. *)
Definition lookupKey (k : string) (keystore : Keystore) : option KeyValue :=
  read (Some k) keystore.

(** The options of [buildMiddleware]; a field left out is [None]. *)
Record MiddlewareOptions : Type := {
  isRequired_option : option bool;
  purpose_option : option string
}.

(** [buildMiddleware(options)]: [Object.assign] fills in the defaults
    when the middleware is built, in the environment of that moment;
    the function it returns runs later, in the environment of the
    request. *)
Definition buildMiddleware (J : JwtLib) (build_env : Env) (keystore : Keystore)
           (options : MiddlewareOptions)
  : Env -> Request -> Locals -> Outcome :=
  let isRequired := match isRequired_option options with
                    | Some b => b
                    | None => required build_env
                    end in
  let purpose := match purpose_option options with
                 | Some p => p
                 | None => "local"
                 end in
  fun env req res => _authMiddleware J env keystore isRequired (Some purpose)
                                     req res.

Definition _deny (response : Response) (errs : Failure) : Response :=
  {| status := Some 401; errors := Some errs |}.

(** [errorHandler(err, req, res, next)]: the response it leaves, and the
    argument of [next] when [next] is called. *)
Definition errorHandler (err : Failure) (res : Response)
  : Response * option Failure :=
  if String.eqb (failure_name err) "UnauthorizedError"
  then (_deny res err, None)
  else (res, Some err).


End Auth.

(* ================================================================== *)
(** ** The older implementation *)

Module Legacy.

Definition _maxAge (env : Env) : string :=
  match MAX_JWT_AGE env with
  | Some age => if truthy age then age else "5s"
  | None => "5s"
  end.

(** The [else if (req.headers && req.headers.authorization)] branch and
    the final [throw]. *)
Definition header_token (req : Request) : Completion UnauthorizedError string :=
  match authorization_header req with
  | Some a =>
      if truthy a then
        match split " " a with
        | [scheme; credentials] =>
            if String.eqb scheme "Bearer" then Return credentials
            else Throw MalformedAuthorizationHeader
        | _ => Throw MalformedAuthorizationHeader
        end
      else Throw (Unauthorized "No authorization token was found")
  | None => Throw (Unauthorized "No authorization token was found")
  end.

Definition _getToken (req : Request) : Completion UnauthorizedError string :=
  match query_token req with
  | Some t => if truthy t then Return t else header_token req
  | None => header_token req
  end.

(** [{ maxAge: exports._maxAge(), algorithms: ["HS256"] }] *)
Definition options (env : Env) : JwtOptions :=
  {| algorithms := ["HS256"]; maxAge := Some (_maxAge env) |}.

(** What a verifier returns here: [[error, payload]]. *)
Definition Verified : Type := (option VerifierError * option Payload)%type.

Section Engine.
Variable J : JwtLib.
Variable env : Env.

Section Verifiers.
Variable tok : string.
Variable keystore : Keystore.

Definition try_key (key : KeyValue) : Verified * Attempts :=
  match verify_call J tok key (options env) with
  | inl p => ((None, Some p), [(key, options env)])
  | inr e => ((Some (ErrThrown e), None), [(key, options env)])
  end.

Definition verifyWithKid (_ : unit) : Verified * Attempts :=
  let kid_failed :=
    ((Some (ErrString "kid verification failed"), None), []) in
  match jwt_decode J tok with
  | Some d =>
      match kid (header d) with
      | Some k =>
          if truthy k then
            match read (Some k) keystore with
            | Some key =>
                if truthy_value (Some key) then try_key key else kid_failed
            | None => kid_failed
            end
          else kid_failed
      | None => kid_failed
      end
  | None => kid_failed
  end.

Definition verifyWithDefault (_ : unit) : Verified * Attempts :=
  if truthy_value (read (Some "default") keystore) then
    match read (Some "default") keystore with
    | Some key => try_key key
    | None => ((Some (ErrString "default verification failed"), None), [])
    end
  else ((Some (ErrString "default verification failed"), None), []).

Fixpoint scan (entries : Keystore) : Verified * Attempts :=
  match entries with
  | [] => ((Some (ErrString "all verification failed"), None), [])
  | (k, key) :: rest =>
      if negb (String.eqb k "default") then
        match verify_call J tok (Material key) (options env) with
        | inl p => ((None, Some p), [(Material key, options env)])
        | inr _ =>
            let (r, l) := scan rest in (r, (Material key, options env) :: l)
        end
      else scan rest
  end.

Definition verifyWithKeystore (_ : unit) : Verified * Attempts :=
  scan keystore.

Definition verifiers : list (unit -> Verified * Attempts) :=
  [verifyWithKid; verifyWithDefault; verifyWithKeystore].
End Verifiers.

Fixpoint run_verifiers (vs : list (unit -> Verified * Attempts))
         (last : Verified)
  : Completion UnauthorizedError Verified * Attempts :=
  match vs with
  | [] => (Return last, [])
  | verifier :: rest =>
      let (r, tried) := verifier tt in
      match fatal (fst r) with
      | Some e => (Throw (VerificationError e), tried)
      | None =>
          match snd r with
          | Some _ => (Return r, tried)
          | None => let (c, later) := run_verifiers rest r in
                    (c, tried ++ later)
          end
      end
  end.

Definition verifyToken (tok : string) (keystore : Keystore)
  : Completion UnauthorizedError Payload * Attempts :=
  let (c, tried) := run_verifiers (verifiers tok keystore) (None, None) in
  match c with
  | Throw e => (Throw e, tried)
  | Return r =>
      match snd r with
      | Some p => (Return p, tried)
      | None => (Throw NoMatchingKey, tried)
      end
  end.

Definition required : bool :=
  orb (is_production env)
      (match REQUIRE_AUTH env with
       | Some flag => String.eqb flag "true"
       | None => false
       end).

(** [res.locals] of this middleware. *)
Record Locals : Type := { payload_attached : option Payload }.

Record Outcome : Type := {
  next_error : option UnauthorizedError;
  locals : Locals;
  tried_keys : Attempts
}.

Definition _authMiddleware (keystore : Keystore) (req : Request) (res : Locals)
  : Outcome :=
  match _getToken req with
  | Throw err => {| next_error := Some err; locals := res; tried_keys := [] |}
  | Return tok =>
      match verifyToken tok keystore with
      | (Return p, tried) =>
          {| next_error := None;
             locals := {| payload_attached := Some p |};
             tried_keys := tried |}
      | (Throw err, tried) =>
          {| next_error := Some err; locals := res; tried_keys := tried |}
      end
  end.

Definition createToken (p : Payload) (keystore : Keystore)
           (requested : option string)
  : Completion UnauthorizedError string :=
  let key :=
    or_value (read requested keystore)
             (or_value (read (Some "default") keystore)
                       (read (hd_error (keys keystore)) keystore)) in
  let signingKid :=
    find (fun k => same_value (read (Some k) keystore) key) (keys keystore) in
  match sign_call J p key {| algorithm := None; header_kid := signingKid |} with
  | inl t => Return t
  | inr err => Throw (SigningError err)
  end.
End Engine.

Definition buildMiddleware (J : JwtLib) (keystore : Keystore)
  : Env -> Request -> Locals -> Outcome :=
  fun env req res => _authMiddleware J env keystore req res.

Definition _deny (response : Response) (errs : Failure) : Response :=
  {| status := Some 401; errors := Some errs |}.

Definition errorHandler (err : Failure) (res : Response)
  : Response * option Failure :=
  if String.eqb (failure_name err) "UnauthorizedError"
  then (_deny res err, None)
  else (res, Some err).


End Legacy.

(* ================================================================== *)
(** ** An executable stand-in for [jsonwebtoken]

    Tokens are written [kid.claims.alg:key]; the "signature" names the
    algorithm and the signing key in clear.  Verification follows the
    library's order of checks: structure, key given, algorithm permitted,
    signature, expiry against the clock [now].  Maximum age is not
    enforced. *)

Module TestJwt.

Local Open Scope string_scope.

Definition show_json (v : Json) : string :=
  match v with
  | JNum n => NilZero.string_of_int (Z.to_int n)
  | JStr s => "'" ++ s
  end.

Definition read_json (s : string) : option Json :=
  match s with
  | String "'" rest => Some (JStr rest)
  | _ => option_map (fun d => JNum (Z.of_int d)) (NilZero.int_of_string s)
  end.

Fixpoint show_claims (p : Payload) : string :=
  match p with
  | [] => EmptyString
  | [(n, v)] => n ++ "=" ++ show_json v
  | (n, v) :: rest => n ++ "=" ++ show_json v ++ "," ++ show_claims rest
  end.

Fixpoint read_claim_list (items : list string) : option Payload :=
  match items with
  | [] => Some []
  | item :: rest =>
      match split "=" item with
      | [n; v] =>
          match read_json v, read_claim_list rest with
          | Some j, Some p => Some ((n, j) :: p)
          | _, _ => None
          end
      | _ => None
      end
  end.

Definition read_claims (s : string) : option Payload :=
  if truthy s then read_claim_list (split "," s) else Some [].

(** The three segments of a token: header, payload, signature. *)
Definition parse (tok : string) : option (Decoded * string * string) :=
  match split "." tok with
  | [k; c; sig] =>
      match read_claims c, split ":" sig with
      | Some p, [alg; key] =>
          Some ({| header := {| kid := if truthy k then Some k else None |};
                   payload := p |}, alg, key)
      | _, _ => None
      end
  | _ => None
  end.

Definition decode (tok : string) : option Decoded :=
  match parse tok with
  | Some (d, _, _) => Some d
  | None => None
  end.

Definition JsonWebTokenError (m : string) : JsError :=
  {| name := "JsonWebTokenError"; message := m |}.

Definition TokenExpiredError : JsError :=
  {| name := "TokenExpiredError"; message := "jwt expired" |}.

Definition expired (now : Z) (p : Payload) : bool :=
  match claim "exp" p with
  | Some (JNum e) => Z.leb e now
  | _ => false
  end.

Definition verify (now : Z) (tok : string) (key : KeyMaterial) (o : JwtOptions)
  : Payload + JsError :=
  match parse tok with
  | None => inr (JsonWebTokenError "jwt malformed")
  | Some (d, alg, signer) =>
      if negb (truthy key) then
        inr (JsonWebTokenError "secret or public key must be provided")
      else if negb (existsb (String.eqb alg) (algorithms o)) then
        inr (JsonWebTokenError "invalid algorithm")
      else if negb (String.eqb signer key) then
        inr (JsonWebTokenError "invalid signature")
      else if expired now (payload d) then inr TokenExpiredError
      else inl (payload d)
  end.

Definition sign (p : Payload) (key : option KeyMaterial) (o : SignOptions)
  : string + JsError :=
  match key with
  | Some k =>
      if truthy k then
        inl (match header_kid o with Some id => id | None => EmptyString end
             ++ "." ++ show_claims p ++ "."
             ++ match algorithm o with Some a => a | None => "HS256" end
             ++ ":" ++ k)
      else inr {| name := "Error";
                  message := "secretOrPrivateKey must have a value" |}
  | None => inr {| name := "Error";
                   message := "secretOrPrivateKey must have a value" |}
  end.

(** What the library answers to a key that is a function or an object:
    the token is looked at first. *)
Definition verify_refusal (tok property : string) (o : JwtOptions)
  : JsError :=
  match parse tok with
  | None => JsonWebTokenError "jwt malformed"
  | Some _ =>
      JsonWebTokenError
        "verify must be called asynchronous if secret or public key is provided as a callback"
  end.

Definition sign_refusal (p : Payload) (property : string) (o : SignOptions)
  : JsError :=
  {| name := "Error";
     message := "secretOrPrivateKey is not valid key material" |}.

Definition lib (now : Z) : JwtLib :=
  {| jwt_decode := decode; jwt_verify := verify now; jwt_sign := sign;
     jwt_verify_refusal := verify_refusal;
     jwt_sign_refusal := sign_refusal |}.

End TestJwt.

(* ================================================================== *)
(** ** Vocabulary of the properties *)

(** An [Authorization] value of the wrong arity or the wrong scheme. *)
Definition malformed_authorization (a : string) : bool :=
  match split " " a with
  | [scheme; _] => negb (String.eqb scheme "Bearer")
  | _ => true
  end.

(** The entries the exhaustive scan visits, in order. *)
Definition non_default (ks : Keystore) : Keystore :=
  filter (fun entry => negb (String.eqb (fst entry) "default")) ks.

(** The calls the scan makes when no key verifies. *)
Definition scan_calls (o : JwtOptions) (ks : Keystore) : Attempts :=
  map (fun entry => (Material (snd entry), o)) (non_default ks).

(** The three strategies run in order, for a given decoded token and
    given options. *)
Definition engine (J : JwtLib) (tok : string) (ks : Keystore)
           (decoded : option Decoded) (o : JwtOptions)
  : Completion UnauthorizedError VerifierResult * Attempts :=
  Auth.run_verifiers (Auth.verifiers J tok ks decoded o) nothing_yet.

(** The pair the older verifiers return, out of a triple. *)
Definition forget_kid (c : Completion UnauthorizedError VerifierResult)
  : Completion UnauthorizedError Legacy.Verified :=
  match c with
  | Return r => Return (v_error r, v_payload r)
  | Throw e => Throw e
  end.

(** The required-auth policy in the words of the specification: an
    explicit flag wins, ["false"] and ["0"] mean false, anything else
    true; without a flag, true exactly in production. *)
Definition required_as_specified (env : Env) : bool :=
  match REQUIRE_AUTH env with
  | Some flag => negb (orb (String.eqb flag "false") (String.eqb flag "0"))
  | None => is_production env
  end.

(** Key selection in the words of the specification: the requested
    identifier if the keystore has it, else ["default"] if the keystore
    has it, else the first entry. *)
Definition select_as_specified (ks : Keystore) (requested : option string)
  : option KeyMaterial :=
  match lookup_opt requested ks with
  | Some key => Some key
  | None =>
      match lookup "default" ks with
      | Some key => Some key
      | None => option_map snd (hd_error ks)
      end
  end.

(** What follows the loop: [if (!payload) throw ...; return [payload, kid]]. *)
Definition conclude
           (c : Completion UnauthorizedError VerifierResult * Attempts)
  : Completion UnauthorizedError (Payload * option string) * Attempts :=
  match c with
  | (Throw e, tried) => (Throw e, tried)
  | (Return r, tried) =>
      match v_payload r with
      | Some p => (Return (p, v_kid r), tried)
      | None => (Throw NoMatchingKey, tried)
      end
  end.

Definition payload_only
           (c : Completion UnauthorizedError (Payload * option string) * Attempts)
  : Completion UnauthorizedError Payload * Attempts :=
  match c with
  | (Return (p, _), tried) => (Return p, tried)
  | (Throw e, tried) => (Throw e, tried)
  end.

Definition production (flag : option string) : Env :=
  {| MAX_JWT_AGE := None; REQUIRE_AUTH := flag;
     NODE_ENV := Some "production" |}.

Definition development (flag : option string) : Env :=
  {| MAX_JWT_AGE := None; REQUIRE_AUTH := flag; NODE_ENV := None |}.

(** The two verification entry points side by side: [verifyToken] of
    [auth.js], called with a purpose, and [verifyToken] of the older
    module. *)
Variant Implementation : Type :=
| AuthJs (purpose : option string)
| Older.

(** The options each implementation hands to [jwt.verify]. *)
Definition constraints (impl : Implementation) (J : JwtLib) (env : Env)
           (tok : string) : JwtOptions :=
  match impl with
  | AuthJs purpose =>
      Auth.jwtOptions env (Auth.default_purpose purpose) (jwt_decode J tok)
  | Older => Legacy.options env
  end.

Definition verify_with (impl : Implementation) (J : JwtLib) (env : Env)
           (tok : string) (ks : Keystore)
  : Completion UnauthorizedError Payload * Attempts :=
  match impl with
  | AuthJs purpose => Auth.verifyToken J env tok ks purpose
  | Older => Legacy.verifyToken J env tok ks
  end.





(** The identifier asked of [createToken] names a property that the
    keystore does not hold itself but inherits. *)
Definition request_reads_inherited (ks : Keystore) (requested : option string)
  : bool :=
  match requested with
  | Some r => match lookup r ks with
              | Some _ => false
              | None => inherited r
              end
  | None => false
  end.

(** Key selection among the entries of the keystore, as the chain of
    [||] makes it when nothing inherited comes into play: an entry
    counts only if its key material is non-empty, a missing identifier
    stands for the entry named ["undefined"], and the first entry is
    the last resort whatever its material. *)
Definition selection_by_truthiness (ks : Keystore) (requested : option string)
  : option KeyMaterial :=
  js_or (lookup (property_name requested) ks)
        (js_or (lookup "default" ks) (option_map snd (hd_error ks))).


Definition expired_labelled : string := "k1.sub='alice,exp=10.HS512:s3cret".
Definition fresh_labelled : string := "k2.sub='alice.HS512:same".
Definition fresh_with_exp_hs256 : string := "k1.exp=5000.HS256:s3cret".
Definition forged : string := ".sub='mallory.HS512:guess".
Definition one_key : Keystore := [("k1", "s3cret")].
Definition two_keys : Keystore := [("k1", "s3cret"); ("k2", "other")].
Definition same_keys : Keystore :=
  [("default", "same"); ("k1", "same"); ("k2", "same")].
Definition with_default : Keystore := [("default", "s3cret"); ("k2", "other")].
Definition named_undefined : Keystore :=
  [("undefined", "u0"); ("default", "d0")].
Definition empty_material : Keystore :=
  [("k1", EmptyString); ("default", "d0")].
Definition local_options : JwtOptions :=
  {| algorithms := ["HS512"]; maxAge := None |}.

Definition hour_env : Env :=
  {| MAX_JWT_AGE := Some "1h"; REQUIRE_AUTH := None; NODE_ENV := None |}.
Definition hour_options : JwtOptions :=
  {| algorithms := ["HS512"]; maxAge := Some "1h" |}.
Definition older_options : JwtOptions :=
  {| algorithms := ["HS256"]; maxAge := Some "5s" |}.

(** Every call in the log was given the options [o]. *)
Definition calls_use (o : JwtOptions) (l : Attempts) : Prop :=
  Forall (fun call => snd call = o) l.

Definition no_env : Env :=
  {| MAX_JWT_AGE := None; REQUIRE_AUTH := None; NODE_ENV := None |}.

Definition request (q : option string) (a : option string) : Request :=
  {| query := Some {| token := q |};
     headers := Some {| authorization := a |} |}.

(** The key the first verifier hands to [jwt.verify], if its guards let
    it make a call: the token decodes, its header has a non-empty [kid],
    and [keystore[kid]] is truthy -- non-empty key material of an entry,
    or an inherited property. *)
Definition kid_target (decoded : option Decoded) (ks : Keystore)
  : option (string * KeyValue) :=
  match decoded with
  | Some d =>
      match kid (header d) with
      | Some k =>
          if truthy k then
            match read (Some k) ks with
            | Some key => if truthy_value (Some key) then Some (k, key) else None
            | None => None
            end
          else None
      | None => None
      end
  | None => None
  end.

(** The key the second verifier hands to [jwt.verify], if any. *)
Definition default_target (ks : Keystore) : option KeyValue :=
  match read (Some "default") ks with
  | Some key => if truthy_value (Some key) then Some key else None
  | None => None
  end.

(** A verifier makes no call, or its call fails without being fatal. *)
Definition declines (J : JwtLib) (tok : string) (o : JwtOptions)
           (target : option KeyValue) : Prop :=
  match target with
  | None => True
  | Some key => exists e, verify_call J tok key o = inr e /\
                          fatal_message (message e) = false
  end.

(** Where a key handed to [jwt.verify] comes from: it is the key
    material of an entry of the keystore, or the inherited property
    that the token's header names. *)
Definition key_from (decoded : option Decoded) (ks : Keystore)
           (key : KeyValue) : Prop :=
  match key with
  | Material m => exists k, In (k, m) ks
  | Inherited n =>
      (exists d, decoded = Some d /\ kid (header d) = Some n) /\
      lookup n ks = None /\ inherited n = true
  end.

Definition call_of (o : JwtOptions) (target : option KeyValue) : Attempts :=
  match target with
  | Some key => [(key, o)]
  | None => []
  end.

(** Verification succeeds with payload [p] and matched key id [k] after
    the calls [calls]; the older module reports the payload only. *)
Definition verified (impl : Implementation) (J : JwtLib) (env : Env)
           (tok : string) (ks : Keystore)
           (p : Payload) (k : string) (calls : Attempts) : Prop :=
  verify_with impl J env tok ks = (Return p, calls) /\
  match impl with
  | AuthJs purpose =>
      Auth.verifyTokenAndReturnPayloadAndKid J env tok ks purpose
      = (Return (p, Some k), calls) /\
      Auth.verifyTokenAndReturnKid J env tok ks purpose
      = (Return (Some k), calls)
  | Older => True
  end.

(** The string contains the character [c]. *)
Fixpoint has_char (c : ascii) (s : string) : bool :=
  match s with
  | EmptyString => false
  | String x rest => orb (Ascii.eqb x c) (has_char c rest)
  end.

(** [REQUIRE_AUTH] as [auth.js] reads a non-empty flag. *)
Definition flag_says_required (flag : string) : bool :=
  andb (negb (String.eqb (toLowerCase flag) "false"))
       (negb (String.eqb flag "0")).

Definition no_response : Response := {| status := None; errors := None |}.

(** The outcome of the loop, from what the three verifiers returned. *)
Definition loop_result (r1 r2 r3 : VerifierResult)
  : Completion UnauthorizedError VerifierResult :=
  match fatal (v_error r1) with
  | Some e => Throw (VerificationError e)
  | None =>
      match v_payload r1 with
      | Some _ => Return r1
      | None =>
          match fatal (v_error r2) with
          | Some e => Throw (VerificationError e)
          | None =>
              match v_payload r2 with
              | Some _ => Return r2
              | None =>
                  match fatal (v_error r3) with
                  | Some e => Throw (VerificationError e)
                  | None => Return r3
                  end
              end
          end
      end
  end.

(** Discharges [wf_keystore] on a literal keystore. *)
Ltac concrete_keystore :=
  split;
  [ repeat (constructor; [simpl; intuition discriminate |]); constructor
  | intros ? ? Hin; simpl in Hin;
    repeat (destruct Hin as [Hin|Hin];
            [inversion Hin; split; discriminate |]);
    contradiction ].

(* ================================================================== *)
(** ** Token extraction *)

Lemma truthy_nonempty (s : string) : s <> EmptyString -> truthy s = true.
Proof. destruct s; [congruence | reflexivity]. Qed.

Lemma read_own (ks : Keystore) (k : string) (m : KeyMaterial) :
  lookup k ks = Some m -> read (Some k) ks = Some (Material m).
Proof. intros H. unfold read. simpl. rewrite H. reflexivity. Qed.

Lemma read_inherited (ks : Keystore) (k : string) :
  lookup k ks = None -> inherited k = true ->
  read (Some k) ks = Some (Inherited k).
Proof. intros H Hi. unfold read. simpl. rewrite H, Hi. reflexivity. Qed.



Lemma read_material (ks : Keystore) (k : string) (m : KeyMaterial) :
  read (Some k) ks = Some (Material m) -> lookup k ks = Some m.
Proof.
  unfold read. simpl. destruct (lookup k ks).
  - intros [= ->]. reflexivity.
  - destruct (inherited k); discriminate.
Qed.

Lemma read_inherited_inv (ks : Keystore) (k n : string) :
  read (Some k) ks = Some (Inherited n) ->
  n = k /\ lookup k ks = None /\ inherited k = true.
Proof.
  unfold read. simpl. destruct (lookup k ks); [discriminate |].
  destruct (inherited k); [| discriminate].
  intros [= ->]. auto.
Qed.

Lemma read_default (ks : Keystore) :
  read (Some "default") ks = option_map Material (lookup "default" ks).
Proof. unfold read. simpl. destruct (lookup "default" ks); reflexivity. Qed.

Lemma malformed_split (a : string) :
  malformed_authorization a = true ->
  match split " " a with
  | [scheme; credentials] =>
      if String.eqb scheme "Bearer"
      then Return (E := UnauthorizedError) credentials
      else Throw MalformedAuthorizationHeader
  | _ => Throw MalformedAuthorizationHeader
  end = Throw MalformedAuthorizationHeader.
Proof.
  unfold malformed_authorization.
  destruct (split " " a) as [|s [|c [|x l]]]; try reflexivity.
  destruct (String.eqb s "Bearer"); simpl; [discriminate | reflexivity].
Qed.

Lemma extractToken_malformed (req : Request) (a : string) :
  truthy_opt (query_token req) = false ->
  authorization_header req = Some a ->
  a <> EmptyString ->
  malformed_authorization a = true ->
  Auth.extractToken req = Throw MalformedAuthorizationHeader.
Proof.
  intros Hq Ha Hne Hm. unfold Auth.extractToken.
  rewrite Hq, Ha, (truthy_nonempty Hne).
  unfold malformed_authorization in Hm.
  destruct (split " " a) as [|s [|c [|x l]]]; try reflexivity.
  destruct (String.eqb s "Bearer"); simpl in Hm; [discriminate | reflexivity].
Qed.

Lemma getToken_malformed (req : Request) (a : string) :
  truthy_opt (query_token req) = false ->
  authorization_header req = Some a ->
  a <> EmptyString ->
  malformed_authorization a = true ->
  Legacy._getToken req = Throw MalformedAuthorizationHeader.
Proof.
  intros Hq Ha Hne Hm.
  assert (Hh : Legacy.header_token req = Throw MalformedAuthorizationHeader).
  { unfold Legacy.header_token. rewrite Ha, (truthy_nonempty Hne).
    apply malformed_split, Hm. }
  unfold Legacy._getToken.
  destruct (query_token req) as [t|]; [| exact Hh].
  simpl in Hq. rewrite Hq. exact Hh.
Qed.

(** C10.  When the request carries a token in its query string, both
    implementations return that token whatever the [headers] object
    holds: the [Authorization] header is not looked at, so a malformed
    one cannot make extraction fail. *)
Theorem query_token_takes_precedence
        (q : Query) (t : string) (h : option Headers) :
  token q = Some t ->
  t <> EmptyString ->
  Auth.extractToken {| query := Some q; headers := h |} = Return (Some t) /\
  Legacy._getToken {| query := Some q; headers := h |} = Return t.
Proof.
  intros Ht Hne. split.
  - unfold Auth.extractToken, query_token. simpl.
    rewrite Ht. simpl. rewrite (truthy_nonempty Hne). reflexivity.
  - unfold Legacy._getToken, query_token. simpl.
    rewrite Ht, (truthy_nonempty Hne). reflexivity.
Qed.

Lemma query_token_takes_precedence_witness :
  malformed_authorization "Basic abc" = true /\
  Auth.extractToken (request (Some "tok") (Some "Basic abc"))
  = Return (Some "tok") /\
  Legacy._getToken (request (Some "tok") (Some "Basic abc")) = Return "tok".
Proof.
  split; [reflexivity |].
  apply (@query_token_takes_precedence
           {| token := Some "tok" |} "tok"
           (Some {| authorization := Some "Basic abc" |})).
  - reflexivity.
  - discriminate.
Defined.

(** C8, as stated, fails: a request with a malformed [Authorization]
    header and a query token is not rejected, in either implementation. *)
Lemma malformed_header_beside_query_token :
  ~ (forall req a,
        authorization_header req = Some a -> a <> EmptyString ->
        malformed_authorization a = true ->
        Auth.extractToken req = Throw MalformedAuthorizationHeader) /\
  ~ (forall req a,
        authorization_header req = Some a -> a <> EmptyString ->
        malformed_authorization a = true ->
        Legacy._getToken req = Throw MalformedAuthorizationHeader).
Proof.
  split; intros H;
    specialize (H (request (Some "tok") (Some "Basic abc")) "Basic abc"
                  eq_refl);
    (assert (Hne : "Basic abc" <> EmptyString) by discriminate);
    specialize (H Hne eq_refl); discriminate H.
Qed.

(** C8, amended.  When the request carries no token in its query string
    and its [Authorization] header is non-empty but has the wrong scheme
    or the wrong arity, extraction throws the malformed-header error in
    both implementations; the middleware passes that error to [next]
    whatever [isRequired] is, leaves [res.locals] alone and verifies
    nothing. *)
Theorem malformed_header_rejected (req : Request) (a : string) :
  truthy_opt (query_token req) = false ->
  authorization_header req = Some a ->
  a <> EmptyString ->
  malformed_authorization a = true ->
  Auth.extractToken req = Throw MalformedAuthorizationHeader /\
  Legacy._getToken req = Throw MalformedAuthorizationHeader /\
  (forall J env ks isRequired purpose res,
      Auth._authMiddleware J env ks isRequired purpose req res
      = {| Auth.next_error := Some MalformedAuthorizationHeader;
           Auth.locals := res; Auth.tried_keys := [] |}) /\
  (forall J env ks res,
      Legacy._authMiddleware J env ks req res
      = {| Legacy.next_error := Some MalformedAuthorizationHeader;
           Legacy.locals := res; Legacy.tried_keys := [] |}).
Proof.
  intros Hq Ha Hne Hm.
  pose proof (extractToken_malformed req Hq Ha Hne Hm) as HA.
  pose proof (getToken_malformed req Hq Ha Hne Hm) as HL.
  repeat split; try assumption.
  - intros. unfold Auth._authMiddleware. rewrite HA. reflexivity.
  - intros. unfold Legacy._authMiddleware. rewrite HL. reflexivity.
Qed.

Lemma malformed_header_rejected_witness :
  Auth.extractToken (request None (Some "Basic abc"))
  = Throw MalformedAuthorizationHeader /\
  Auth.extractToken (request None (Some "Bearer"))
  = Throw MalformedAuthorizationHeader.
Proof.
  split.
  - apply (@malformed_header_rejected
             (request None (Some "Basic abc")) "Basic abc");
      [reflexivity | reflexivity | discriminate | reflexivity].
  - apply (@malformed_header_rejected
             (request None (Some "Bearer")) "Bearer");
      [reflexivity | reflexivity | discriminate | reflexivity].
Defined.

(* ================================================================== *)
(** ** The required-auth policy *)

(** C9, as stated, fails.  In the older implementation a production
    environment requires authentication even under an explicit
    ["false"]; in [auth.js] the flag is compared case-insensitively, so
    ["FALSE"] turns authentication off, and an empty flag counts as
    unset. *)
Lemma required_differs_from_specified :
  Legacy.required (production (Some "false")) = true /\
  required_as_specified (production (Some "false")) = false /\
  Auth.required (development (Some "FALSE")) = false /\
  required_as_specified (development (Some "FALSE")) = true /\
  Auth.required (development (Some EmptyString)) = false /\
  required_as_specified (development (Some EmptyString)) = true.
Proof. repeat split. Qed.

(** C9, amended.  In [auth.js] a non-empty [REQUIRE_AUTH] decides alone,
    also in production: the result is false exactly when the flag is
    ["false"] in any letter case or is ["0"]; an unset or empty flag
    leaves the decision to [NODE_ENV === "production"].  In the older
    implementation the flag has no precedence: the result is true in
    production, and elsewhere exactly when the flag is ["true"]. *)
Theorem required_policy (env : Env) :
  (forall flag,
      REQUIRE_AUTH env = Some flag -> flag <> EmptyString ->
      Auth.required env
      = andb (negb (String.eqb (toLowerCase flag) "false"))
             (negb (String.eqb flag "0"))) /\
  (truthy_opt (REQUIRE_AUTH env) = false ->
   Auth.required env = is_production env) /\
  (is_production env = true -> Legacy.required env = true) /\
  (is_production env = false ->
   Legacy.required env = same_material (REQUIRE_AUTH env) (Some "true")).
Proof.
  unfold Auth.required, Legacy.required.
  repeat split.
  - intros flag Hf Hne. rewrite Hf, (truthy_nonempty Hne). reflexivity.
  - destruct (REQUIRE_AUTH env) as [flag|]; simpl; [| reflexivity].
    intros ->. reflexivity.
  - intros ->. reflexivity.
  - intros ->. simpl. destruct (REQUIRE_AUTH env); reflexivity.
Qed.

Lemma required_policy_witness :
  Auth.required (production (Some "false")) = false /\
  Auth.required (production (Some "no")) = true /\
  Auth.required (production None) = true /\
  Auth.required (development None) = false /\
  Legacy.required (production (Some "false")) = true /\
  Legacy.required (development (Some "true")) = true.
Proof.
  refine (conj _ (conj _ (conj _ (conj _ (conj _ _))))).
  - apply (proj1 (required_policy (production (Some "false"))) "false");
      [reflexivity | discriminate].
  - apply (proj1 (required_policy (production (Some "no"))) "no");
      [reflexivity | discriminate].
  - apply (proj1 (proj2 (required_policy (production None)))). reflexivity.
  - apply (proj1 (proj2 (required_policy (development None)))). reflexivity.
  - apply (proj1 (proj2 (proj2 (required_policy (production (Some "false")))))).
    reflexivity.
  - apply (proj2 (proj2 (proj2 (required_policy (development (Some "true")))))).
    reflexivity.
Defined.

(* ================================================================== *)
(** ** The verification engine *)

Section EngineFacts.
Variable J : JwtLib.
Variable tok : string.
Variable o : JwtOptions.

Lemma auth_verify_engine env ks purpose :
  Auth.verifyTokenAndReturnPayloadAndKid J env tok ks purpose
  = conclude (engine J tok ks (jwt_decode J tok)
                     (Auth.jwtOptions env (Auth.default_purpose purpose)
                                      (jwt_decode J tok))).
Proof.
  unfold Auth.verifyTokenAndReturnPayloadAndKid, conclude, engine.
  destruct (Auth.run_verifiers _ _) as [[r|e] tried]; reflexivity.
Qed.

Lemma legacy_scan env ks :
  Legacy.scan J env tok ks
  = let (r, l) := Auth.scan J tok (Legacy.options env) ks in
    ((v_error r, v_payload r), l).
Proof.
  induction ks as [|[k key] rest IH]; simpl; [reflexivity |].
  destruct (negb (String.eqb k "default")); [| exact IH].
  destruct (jwt_verify J tok key (Legacy.options env)); [reflexivity |].
  rewrite IH. destruct (Auth.scan J tok (Legacy.options env) rest).
  reflexivity.
Qed.

Lemma legacy_run env ks :
  Legacy.run_verifiers (Legacy.verifiers J env tok ks) (None, None)
  = let (c, l) := engine J tok ks (jwt_decode J tok) (Legacy.options env) in
    (forget_kid c, l).
Proof.
  unfold engine, Legacy.verifiers, Auth.verifiers.
  assert (Hkid : Legacy.verifyWithKid J env tok ks tt
                 = let (r, l) := Auth.verifyWithKid J tok ks (jwt_decode J tok)
                                                    (Legacy.options env) tt in
                   ((v_error r, v_payload r), l)).
  { unfold Legacy.verifyWithKid, Auth.verifyWithKid,
      Legacy.try_key, Auth.try_key.
    destruct (jwt_decode J tok) as [d|]; [| reflexivity].
    destruct (kid (header d)) as [k|]; [| reflexivity].
    destruct (truthy k); [| reflexivity].
    destruct (read (Some k) ks) as [key|]; [| reflexivity].
    destruct (truthy_value (Some key)); [| reflexivity].
    destruct (verify_call J tok key (Legacy.options env)); reflexivity. }
  assert (Hdef : Legacy.verifyWithDefault J env tok ks tt
                 = let (r, l) := Auth.verifyWithDefault J tok ks
                                                        (Legacy.options env) tt in
                   ((v_error r, v_payload r), l)).
  { unfold Legacy.verifyWithDefault, Auth.verifyWithDefault,
      Legacy.try_key, Auth.try_key.
    destruct (read (Some "default") ks) as [key|]; [| reflexivity].
    destruct (truthy_value (Some key)); [| reflexivity].
    destruct (verify_call J tok key (Legacy.options env)); reflexivity. }
  assert (Hscan : Legacy.verifyWithKeystore J env tok ks tt
                  = let (r, l) := Auth.verifyWithKeystore J tok ks
                                                          (Legacy.options env) tt in
                    ((v_error r, v_payload r), l)).
  { apply legacy_scan. }
  simpl. rewrite Hkid, Hdef, Hscan.
  destruct (Auth.verifyWithKid _ _ _ _ _ _) as [r1 l1]. simpl.
  destruct (fatal (v_error r1)); [reflexivity |].
  destruct (v_payload r1) eqn:E1; [simpl; rewrite E1; reflexivity |].
  destruct (Auth.verifyWithDefault _ _ _ _ _) as [r2 l2]. simpl.
  destruct (fatal (v_error r2)); [reflexivity |].
  destruct (v_payload r2) eqn:E2; [simpl; rewrite E2; reflexivity |].
  destruct (Auth.verifyWithKeystore _ _ _ _ _) as [r3 l3]. simpl.
  destruct (fatal (v_error r3)); [reflexivity |].
  destruct (v_payload r3) eqn:E3; simpl; rewrite E3; reflexivity.
Qed.

Lemma legacy_verify_engine env ks :
  Legacy.verifyToken J env tok ks
  = payload_only
      (conclude (engine J tok ks (jwt_decode J tok) (Legacy.options env))).
Proof.
  unfold Legacy.verifyToken. rewrite legacy_run.
  destruct (engine _ _ _ _ _) as [[r|e] tried]; simpl; [| reflexivity].
  destruct (v_payload r); reflexivity.
Qed.
End EngineFacts.

Section StrategyFacts.
Variable J : JwtLib.
Variable tok : string.
Variable ks : Keystore.
Variable decoded : option Decoded.
Variable o : JwtOptions.

Lemma kid_strategy_applies d K key :
  decoded = Some d -> kid (header d) = Some K -> K <> EmptyString ->
  lookup K ks = Some key -> key <> EmptyString ->
  Auth.verifyWithKid J tok ks decoded o tt
  = Auth.try_key J tok o (Material key) K.
Proof.
  intros -> HK HKne Hl Hkne. unfold Auth.verifyWithKid.
  rewrite HK, (truthy_nonempty HKne), (read_own _ _ Hl). simpl.
  rewrite (truthy_nonempty Hkne). reflexivity.
Qed.




(** The scan swallows whatever a key throws and moves on. *)
Lemma scan_all_fail entries :
  (forall id key, In (id, key) (non_default entries) ->
                  exists e, jwt_verify J tok key o = inr e) ->
  Auth.scan J tok o entries
  = (failed (ErrString "all verification failed"), scan_calls o entries).
Proof.
  induction entries as [|[k key] rest IH]; intros Hall; [reflexivity |].
  unfold scan_calls, non_default in *. simpl in *.
  destruct (negb (String.eqb k "default")); simpl in *.
  - destruct (Hall k key (or_introl eq_refl)) as [e He]. rewrite He.
    rewrite IH by (intros; eapply Hall; right; eassumption).
    reflexivity.
  - apply IH. exact Hall.
Qed.

Lemma engine_first_returns p K l :
  Auth.verifyWithKid J tok ks decoded o tt = (succeeded p K, l) ->
  engine J tok ks decoded o = (Return (succeeded p K), l).
Proof.
  intros H. unfold engine, Auth.verifiers. simpl. rewrite H. reflexivity.
Qed.



End StrategyFacts.

Lemma wf_lookup (ks : Keystore) (id : string) (key : KeyMaterial) :
  lookup id ks = Some key -> In (id, key) ks.
Proof.
  induction ks as [|[k v] rest IH]; simpl; [discriminate |].
  destruct (String.eqb_spec k id) as [->|Hne].
  - intros [= ->]. left. reflexivity.
  - intros H. right. apply IH, H.
Qed.

Lemma wf_entry (ks : Keystore) (id : string) (key : KeyMaterial) :
  wf_keystore ks -> lookup id ks = Some key -> id <> EmptyString /\ key <> EmptyString.
Proof. intros [_ H] Hl. apply H, wf_lookup, Hl. Qed.

Lemma kid_strategy_returns
      (J : JwtLib) (env : Env) (tok : string) (ks : Keystore)
      (purpose : option string) (d : Decoded) (K : string)
      (key : KeyMaterial) (p : Payload) :
  K <> EmptyString -> key <> EmptyString ->
  jwt_decode J tok = Some d ->
  kid (header d) = Some K ->
  lookup K ks = Some key ->
  jwt_verify J tok key
             (Auth.jwtOptions env (Auth.default_purpose purpose) (Some d))
  = inl p ->
  Auth.verifyTokenAndReturnPayloadAndKid J env tok ks purpose
  = (Return (p, Some K),
     [(Material key,
       Auth.jwtOptions env (Auth.default_purpose purpose) (Some d))]).
Proof.
  intros HKne Hkne Hd HK Hl Hv.
  rewrite auth_verify_engine, Hd.
  erewrite engine_first_returns.
  - reflexivity.
  - rewrite (kid_strategy_applies J tok ks _ eq_refl HK HKne Hl Hkne).
    unfold Auth.try_key, verify_call. rewrite Hv. reflexivity.
Qed.

(** C2.  If the token's header names a key identifier [K] that the
    keystore holds and [jwt.verify] accepts the token under that key,
    then verification returns the payload with matched key id [K], for
    any purpose; that key is the only one tried, so the other entries --
    ["default"] included -- play no part. *)
Theorem kid_has_priority
        (J : JwtLib) (env : Env) (tok : string) (ks : Keystore)
        (purpose : option string) (d : Decoded) (K : string)
        (key : KeyMaterial) (p : Payload) :
  wf_keystore ks ->
  jwt_decode J tok = Some d ->
  kid (header d) = Some K ->
  lookup K ks = Some key ->
  jwt_verify J tok key
             (Auth.jwtOptions env (Auth.default_purpose purpose) (Some d))
  = inl p ->
  Auth.verifyTokenAndReturnPayloadAndKid J env tok ks purpose
  = (Return (p, Some K),
     [(Material key,
       Auth.jwtOptions env (Auth.default_purpose purpose) (Some d))]).
Proof.
  intros Hwf Hd HK Hl Hv.
  destruct (@wf_entry ks K key Hwf Hl) as [HKne Hkne].
  exact (@kid_strategy_returns J env tok ks purpose d K key p
           HKne Hkne Hd HK Hl Hv).
Qed.

Lemma kid_has_priority_witness :
  Auth.verifyTokenAndReturnPayloadAndKid
    (TestJwt.lib 1000) no_env fresh_labelled same_keys None
  = (Return ([("sub", JStr "alice")], Some "k2"),
     [(Material "same", local_options)]).
Proof.
  apply (@kid_has_priority (TestJwt.lib 1000) no_env fresh_labelled same_keys
           None {| header := {| kid := Some "k2" |};
                   payload := [("sub", JStr "alice")] |} "k2" "same").
  - concrete_keystore.
  - reflexivity.
  - reflexivity.
  - reflexivity.
  - reflexivity.
Defined.

Section BothImplementations.
Variable impl : Implementation.
Variable J : JwtLib.
Variable env : Env.
Variable tok : string.
Variable ks : Keystore.

Local Abbreviation o := (constraints impl J env tok).

Lemma verify_with_engine :
  verify_with impl J env tok ks
  = payload_only (conclude (engine J tok ks (jwt_decode J tok) o)).
Proof.
  destruct impl as [purpose|]; simpl.
  - unfold Auth.verifyToken. rewrite auth_verify_engine.
    destruct (conclude _) as [[[p k]|e] l]; reflexivity.
  - apply legacy_verify_engine.
Qed.








End BothImplementations.






Section UndecodableToken.
Variable impl : Implementation.
Variable J : JwtLib.
Variable env : Env.
Variable tok : string.
Variable ks : Keystore.

Hypothesis undecodable : jwt_decode J tok = None.


End UndecodableToken.





(* ================================================================== *)
(** ** The options every call of [jwt.verify] receives *)

Section CallsUseOptions.
Variable J : JwtLib.
Variable tok : string.
Variable ks : Keystore.
Variable decoded : option Decoded.
Variable o : JwtOptions.

Local Abbreviation uses_o := (calls_use o).

Lemma try_key_calls key k : uses_o (snd (Auth.try_key J tok o key k)).
Proof.
  unfold Auth.try_key.
  destruct (verify_call J tok key o); repeat constructor.
Qed.

Lemma kid_calls : uses_o (snd (Auth.verifyWithKid J tok ks decoded o tt)).
Proof.
  unfold Auth.verifyWithKid.
  destruct decoded as [d|]; [| constructor].
  destruct (kid (header d)) as [k|]; [| constructor].
  destruct (truthy k); [| constructor].
  destruct (read (Some k) ks) as [key|]; [| constructor].
  destruct (truthy_value (Some key)); [apply try_key_calls | constructor].
Qed.

Lemma default_calls : uses_o (snd (Auth.verifyWithDefault J tok ks o tt)).
Proof.
  unfold Auth.verifyWithDefault.
  destruct (read (Some "default") ks) as [key|]; [| constructor].
  destruct (truthy_value (Some key)); [apply try_key_calls | constructor].
Qed.

Lemma scan_calls_use entries : uses_o (snd (Auth.scan J tok o entries)).
Proof.
  induction entries as [|[k key] rest IH]; simpl; [constructor |].
  destruct (negb (String.eqb k "default")); [| exact IH].
  destruct (jwt_verify J tok key o); [repeat constructor |].
  destruct (Auth.scan J tok o rest) as [r l]. simpl in *.
  constructor; [reflexivity | exact IH].
Qed.

Lemma engine_calls : uses_o (snd (engine J tok ks decoded o)).
Proof.
  unfold engine, Auth.verifiers. simpl.
  pose proof kid_calls as H1. pose proof default_calls as H2.
  pose proof (scan_calls_use ks) as H3.
  unfold Auth.verifyWithKeystore.
  destruct (Auth.verifyWithKid _ _ _ _ _ _) as [r1 l1].
  destruct (Auth.verifyWithDefault _ _ _ _ _) as [r2 l2].
  destruct (Auth.scan _ _ _ _) as [r3 l3]. simpl in *.
  destruct (fatal (v_error r1)); [exact H1 |].
  destruct (v_payload r1); [exact H1 |].
  destruct (fatal (v_error r2)); simpl.
  { unfold calls_use. apply Forall_app. split; assumption. }
  destruct (v_payload r2); simpl.
  { unfold calls_use. apply Forall_app. split; assumption. }
  assert (H4 : uses_o (l1 ++ l2 ++ l3 ++ [])).
  { unfold calls_use in *. rewrite app_nil_r.
    apply Forall_app. split; [assumption |].
    apply Forall_app. split; assumption. }
  destruct (fatal (v_error r3)); [| destruct (v_payload r3)]; simpl.
  - unfold calls_use in *. apply Forall_app. split; [assumption |].
    apply Forall_app. split; assumption.
  - unfold calls_use in *. apply Forall_app. split; [assumption |].
    apply Forall_app. split; assumption.
  - exact H4.
Qed.

Lemma conclude_calls :
  snd (conclude (engine J tok ks decoded o)) = snd (engine J tok ks decoded o).
Proof.
  unfold conclude. destruct (engine J tok ks decoded o) as [[r|e] l];
    [destruct (v_payload r) |]; reflexivity.
Qed.
End CallsUseOptions.

Lemma payload_only_calls
      (c : Completion UnauthorizedError (Payload * option string) * Attempts) :
  snd (payload_only c) = snd c.
Proof. destruct c as [[[p k]|e] l]; reflexivity. Qed.

(** C4, as stated, fails in the older module: a token whose payload
    carries [exp] is verified under the maximum age all the same, here
    the built-in ["5s"]. *)
Lemma older_module_always_limits_age :
  option_map (fun d => claim "exp" (payload d))
             (jwt_decode (TestJwt.lib 1000) fresh_with_exp_hs256)
  = Some (Some (JNum 5000)) /\
  Legacy.verifyToken (TestJwt.lib 1000) no_env fresh_with_exp_hs256 one_key
  = (Return [("exp", JNum 5000)], [(Material "s3cret", older_options)]).
Proof. split; reflexivity. Qed.

(** C4, amended.  In [auth.js] every call of [jwt.verify] receives
    [maxAge = process.env.MAX_JWT_AGE] when the token decodes to a
    payload without [exp], and no [maxAge] when the payload has [exp] or
    the token does not decode.  In the older module every call receives
    a maximum age, [MAX_JWT_AGE] or ["5s"], whether or not the payload
    has [exp]. *)
Theorem max_age_constraint
        (J : JwtLib) (env : Env) (tok : string) (ks : Keystore) :
  (forall purpose call,
      In call (snd (Auth.verifyTokenAndReturnPayloadAndKid J env tok ks purpose)) ->
      maxAge (snd call)
      = match jwt_decode J tok with
        | Some d => match claim "exp" (payload d) with
                    | None => MAX_JWT_AGE env
                    | Some _ => None
                    end
        | None => None
        end) /\
  (forall call,
      In call (snd (Legacy.verifyToken J env tok ks)) ->
      maxAge (snd call) = Some (Legacy._maxAge env) /\
      Legacy._maxAge env <> EmptyString).
Proof.
  split.
  - intros purpose call Hin.
    rewrite auth_verify_engine, conclude_calls in Hin.
    pose proof (engine_calls J tok ks (jwt_decode J tok)
                  (Auth.jwtOptions env (Auth.default_purpose purpose)
                                   (jwt_decode J tok))) as H.
    unfold calls_use in H. rewrite Forall_forall in H. rewrite (H call Hin). reflexivity.
  - intros call Hin.
    rewrite legacy_verify_engine, payload_only_calls, conclude_calls in Hin.
    pose proof (engine_calls J tok ks (jwt_decode J tok) (Legacy.options env))
      as H.
    unfold calls_use in H. rewrite Forall_forall in H. rewrite (H call Hin). split; [reflexivity |].
    unfold Legacy._maxAge.
    destruct (MAX_JWT_AGE env) as [age|]; [| discriminate].
    destruct age; simpl; discriminate.
Qed.

Lemma max_age_constraint_witness :
  (In (Material "same", hour_options)
      (snd (Auth.verifyTokenAndReturnPayloadAndKid
              (TestJwt.lib 1000) hour_env fresh_labelled same_keys None)) /\
   maxAge (snd (Material "same", hour_options)) = Some "1h") /\
  (In (Material "s3cret", local_options)
      (snd (Auth.verifyTokenAndReturnPayloadAndKid
              (TestJwt.lib 1000) hour_env expired_labelled one_key None)) /\
   maxAge (snd (Material "s3cret", local_options)) = None) /\
  (In (Material "s3cret", older_options)
      (snd (Legacy.verifyToken
              (TestJwt.lib 1000) no_env fresh_with_exp_hs256 one_key)) /\
   maxAge (snd (Material "s3cret", older_options)) = Some "5s").
Proof.
  refine (conj (conj _ _) (conj (conj _ _) (conj _ _)));
    try (left; reflexivity).
  - apply (proj1 (max_age_constraint (TestJwt.lib 1000) hour_env
                                     fresh_labelled same_keys)
                 None (Material "same", hour_options)).
    left. reflexivity.
  - apply (proj1 (max_age_constraint (TestJwt.lib 1000) hour_env
                                     expired_labelled one_key)
                 None (Material "s3cret", local_options)).
    left. reflexivity.
  - apply (proj2 (max_age_constraint (TestJwt.lib 1000) no_env
                                     fresh_with_exp_hs256 one_key)
                 (Material "s3cret", older_options)).
    left. reflexivity.
Defined.

(* ================================================================== *)
(** ** The middleware *)

(** C5, as stated, fails.  In [auth.js] with [isRequired = false] a
    forged token, which the engine rejects, goes through: [next] is
    called without an error, the payload decoded from the token is
    attached, and [jwt.verify] is never called.  In the older module a
    request without a token is refused even where authentication is not
    required. *)
Lemma unverified_token_passes_when_not_required :
  fst (Auth.verifyTokenAndReturnPayloadAndKid
         (TestJwt.lib 1000) no_env forged with_default None)
  = Throw NoMatchingKey /\
  Auth._authMiddleware (TestJwt.lib 1000) no_env with_default false None
                       (request (Some forged) None) Auth.no_locals
  = {| Auth.next_error := None;
       Auth.locals :=
         {| Auth.JWTPayload := Some (Some [("sub", JStr "mallory")]);
            Auth.JWTVerifyingKid := None |};
       Auth.tried_keys := [] |} /\
  Legacy.required no_env = false /\
  Legacy._authMiddleware (TestJwt.lib 1000) no_env with_default
                         (request None None)
                         {| Legacy.payload_attached := None |}
  = {| Legacy.next_error :=
         Some (Unauthorized "No authorization token was found");
       Legacy.locals := {| Legacy.payload_attached := None |};
       Legacy.tried_keys := [] |}.
Proof. repeat split. Qed.

(** C5, amended.  In [auth.js], for a request carrying a non-empty
    token the middleware attaches the payload decoded from the token,
    without verification; it runs the verification engine only when
    [isRequired] is true, and then attaches the matched key id on
    success or passes the engine's error to [next]; when [isRequired]
    is false nothing is verified and the request proceeds.  Without a
    token the request proceeds with [res.locals] untouched when
    [isRequired] is false and is refused when it is true.  In the older
    module every token found is verified and the verified payload is
    attached on success; a request without a token is always refused. *)
Theorem middleware_outcomes
        (J : JwtLib) (env : Env) (ks : Keystore) (purpose : option string)
        (req : Request) :
  (forall tok res,
      Auth.extractToken req = Return (Some tok) -> tok <> EmptyString ->
      Auth._authMiddleware J env ks false purpose req res
      = {| Auth.next_error := None;
           Auth.locals :=
             {| Auth.JWTPayload := Some (option_map payload (jwt_decode J tok));
                Auth.JWTVerifyingKid := Auth.JWTVerifyingKid res |};
           Auth.tried_keys := [] |} /\
      Auth._authMiddleware J env ks true purpose req res
      = match Auth.verifyTokenAndReturnPayloadAndKid J env tok ks purpose with
        | (Return (_, k), tried) =>
            {| Auth.next_error := None;
               Auth.locals :=
                 {| Auth.JWTPayload :=
                      Some (option_map payload (jwt_decode J tok));
                    Auth.JWTVerifyingKid := k |};
               Auth.tried_keys := tried |}
        | (Throw err, tried) =>
            {| Auth.next_error := Some err;
               Auth.locals :=
                 {| Auth.JWTPayload :=
                      Some (option_map payload (jwt_decode J tok));
                    Auth.JWTVerifyingKid := Auth.JWTVerifyingKid res |};
               Auth.tried_keys := tried |}
        end) /\
  (forall res,
      truthy_opt (query_token req) = false ->
      truthy_opt (authorization_header req) = false ->
      Auth._authMiddleware J env ks false purpose req res
      = {| Auth.next_error := None; Auth.locals := res;
           Auth.tried_keys := [] |} /\
      Auth._authMiddleware J env ks true purpose req res
      = {| Auth.next_error := Some (Unauthorized "JWT is required");
           Auth.locals := res; Auth.tried_keys := [] |}) /\
  (forall tok res,
      Legacy._getToken req = Return tok ->
      Legacy._authMiddleware J env ks req res
      = match Legacy.verifyToken J env tok ks with
        | (Return p, tried) =>
            {| Legacy.next_error := None;
               Legacy.locals := {| Legacy.payload_attached := Some p |};
               Legacy.tried_keys := tried |}
        | (Throw err, tried) =>
            {| Legacy.next_error := Some err; Legacy.locals := res;
               Legacy.tried_keys := tried |}
        end) /\
  (forall res,
      truthy_opt (query_token req) = false ->
      truthy_opt (authorization_header req) = false ->
      Legacy._authMiddleware J env ks req res
      = {| Legacy.next_error :=
             Some (Unauthorized "No authorization token was found");
           Legacy.locals := res; Legacy.tried_keys := [] |}).
Proof.
  refine (conj _ (conj _ (conj _ _))).
  - intros tok res He Hne. unfold Auth._authMiddleware.
    rewrite He, (truthy_nonempty Hne). split; [reflexivity |].
    unfold Auth.verifyTokenAndReturnKid.
    destruct (Auth.verifyTokenAndReturnPayloadAndKid J env tok ks purpose)
      as [[[p k]|e] tried]; reflexivity.
  - intros res Hq Hh.
    assert (He : Auth.extractToken req = Return None).
    { unfold Auth.extractToken. rewrite Hq.
      destruct (authorization_header req) as [a|]; [| reflexivity].
      simpl in Hh. rewrite Hh. reflexivity. }
    unfold Auth._authMiddleware. rewrite He. split; reflexivity.
  - intros tok res He. unfold Legacy._authMiddleware. rewrite He.
    destruct (Legacy.verifyToken J env tok ks) as [[p|e] tried]; reflexivity.
  - intros res Hq Hh.
    assert (Hhd : Legacy.header_token req
                  = Throw (Unauthorized "No authorization token was found")).
    { unfold Legacy.header_token.
      destruct (authorization_header req) as [a|]; [| reflexivity].
      simpl in Hh. rewrite Hh. reflexivity. }
    assert (He : Legacy._getToken req
                 = Throw (Unauthorized "No authorization token was found")).
    { unfold Legacy._getToken.
      destruct (query_token req) as [t|]; [| exact Hhd].
      simpl in Hq. rewrite Hq. exact Hhd. }
    unfold Legacy._authMiddleware. rewrite He. reflexivity.
Qed.

Lemma middleware_outcomes_witness :
  Auth._authMiddleware (TestJwt.lib 1000) no_env same_keys true None
                       (request (Some fresh_labelled) None) Auth.no_locals
  = {| Auth.next_error := None;
       Auth.locals :=
         {| Auth.JWTPayload := Some (Some [("sub", JStr "alice")]);
            Auth.JWTVerifyingKid := Some "k2" |};
       Auth.tried_keys := [(Material "same", local_options)] |} /\
  Auth._authMiddleware (TestJwt.lib 1000) no_env same_keys false None
                       (request None None) Auth.no_locals
  = {| Auth.next_error := None; Auth.locals := Auth.no_locals;
       Auth.tried_keys := [] |} /\
  Legacy._authMiddleware (TestJwt.lib 1000) no_env one_key
                         (request None (Some "Bearer k1.exp=5000.HS256:s3cret"))
                         {| Legacy.payload_attached := None |}
  = {| Legacy.next_error := None;
       Legacy.locals :=
         {| Legacy.payload_attached := Some [("exp", JNum 5000)] |};
       Legacy.tried_keys := [(Material "s3cret", older_options)] |}.
Proof.
  refine (conj _ (conj _ _)).
  - apply (proj2 (proj1 (middleware_outcomes
                           (TestJwt.lib 1000) no_env same_keys None
                           (request (Some fresh_labelled) None))
                        fresh_labelled Auth.no_locals eq_refl
                        ltac:(discriminate))).
  - apply (proj1 (proj1 (proj2 (middleware_outcomes
                                  (TestJwt.lib 1000) no_env same_keys None
                                  (request None None)))
                        Auth.no_locals eq_refl eq_refl)).
  - apply (proj1 (proj2 (proj2 (middleware_outcomes
                                  (TestJwt.lib 1000) no_env one_key None
                                  (request None
                                     (Some "Bearer k1.exp=5000.HS256:s3cret")))))
                 fresh_with_exp_hs256 {| Legacy.payload_attached := None |}
                 eq_refl).
Defined.

(* ================================================================== *)
(** ** Issuance *)

Lemma wf_truthy (ks : Keystore) (id : string) (key : KeyMaterial) :
  wf_keystore ks -> lookup id ks = Some key -> truthy_opt (Some key) = true.
Proof.
  intros Hwf Hl. unfold truthy_opt. apply truthy_nonempty.
  apply (@wf_entry ks id key Hwf Hl).
Qed.

Lemma read_first (ks : Keystore) :
  read (hd_error (keys ks)) ks
  = option_map Material (option_map snd (hd_error ks)).
Proof.
  destruct ks as [|[k v] rest]; [reflexivity |].
  unfold read. simpl. rewrite String.eqb_refl. reflexivity.
Qed.

Lemma read_request (ks : Keystore) (requested : option string) :
  request_reads_inherited ks requested = false ->
  read requested ks
  = option_map Material (lookup (property_name requested) ks).
Proof.
  unfold request_reads_inherited, read.
  destruct requested as [r|]; simpl.
  - destruct (lookup r ks); [reflexivity |]. intros ->. reflexivity.
  - intros _. destruct (lookup "undefined" ks); reflexivity.
Qed.

Lemma request_reads_inherited_true (ks : Keystore) (requested : option string) :
  request_reads_inherited ks requested = true ->
  exists r, requested = Some r /\ lookup r ks = None /\ inherited r = true.
Proof.
  unfold request_reads_inherited.
  destruct requested as [r|]; [| discriminate].
  destruct (lookup r ks) eqn:Hl; [discriminate |].
  intros H. exists r. repeat split; assumption.
Qed.

Lemma or_value_material (a b : option KeyMaterial) :
  or_value (option_map Material a) (option_map Material b)
  = option_map Material (js_or a b).
Proof.
  unfold or_value, js_or.
  destruct a as [x|]; simpl; [destruct (truthy x) |]; reflexivity.
Qed.

Lemma sign_call_material
      (J : JwtLib) (P : Payload) (key : option KeyMaterial) (o : SignOptions) :
  sign_call J P (option_map Material key) o = jwt_sign J P key o.
Proof. destruct key; reflexivity. Qed.

(** Unless the requested identifier reads an inherited property, the
    chain of [||] works on entries of the keystore alone. *)
Lemma signing_key_law (ks : Keystore) (requested : option string) :
  request_reads_inherited ks requested = false ->
  Auth.signing_key ks requested
  = option_map Material (selection_by_truthiness ks requested).
Proof.
  intros H. unfold Auth.signing_key, selection_by_truthiness.
  rewrite (read_request _ _ H), read_default, read_first.
  rewrite !or_value_material. reflexivity.
Qed.

Lemma signing_key_inherited (ks : Keystore) (r : string) :
  lookup r ks = None -> inherited r = true ->
  Auth.signing_key ks (Some r) = Some (Inherited r).
Proof.
  intros Hl Hi. unfold Auth.signing_key.
  rewrite (read_inherited _ _ Hl Hi). reflexivity.
Qed.

(** On a well-formed keystore the chain of [||] over the entries is the
    priority order of the specification, provided a missing request
    does not meet an entry named ["undefined"]. *)
Lemma selection_as_specified (ks : Keystore) (requested : option string) :
  wf_keystore ks ->
  (requested = None -> lookup "undefined" ks = None) ->
  selection_by_truthiness ks requested = select_as_specified ks requested.
Proof.
  intros Hwf Hu. unfold selection_by_truthiness, select_as_specified, js_or.
  destruct requested as [r|]; simpl.
  - destruct (lookup r ks) as [key|] eqn:Hr.
    + pose proof (@wf_truthy ks r key Hwf Hr) as Ht.
      rewrite Ht. reflexivity.
    + destruct (lookup "default" ks) as [dk|] eqn:Hd; [| reflexivity].
      pose proof (@wf_truthy ks "default" dk Hwf Hd) as Ht.
      rewrite Ht. reflexivity.
  - rewrite (Hu eq_refl). simpl.
    destruct (lookup "default" ks) as [dk|] eqn:Hd; [| reflexivity].
    pose proof (@wf_truthy ks "default" dk Hwf Hd) as Ht.
    rewrite Ht. reflexivity.
Qed.

Lemma signing_key_as_specified (ks : Keystore) (requested : option string) :
  wf_keystore ks ->
  request_reads_inherited ks requested = false ->
  (requested = None -> lookup "undefined" ks = None) ->
  Auth.signing_key ks requested
  = option_map Material (select_as_specified ks requested).
Proof.
  intros Hwf Hr Hu.
  rewrite (signing_key_law _ _ Hr), (selection_as_specified Hwf Hu).
  reflexivity.
Qed.


Lemma selection_stored
      (ks : Keystore) (requested : option string) (key : KeyMaterial) :
  selection_by_truthiness ks requested = Some key ->
  exists id, lookup id ks = Some key.
Proof.
  unfold selection_by_truthiness, js_or.
  destruct (lookup (property_name requested) ks) as [a|] eqn:Ha; simpl.
  - destruct (truthy a).
    + intros [= <-]. eexists. exact Ha.
    + destruct (lookup "default" ks) as [dk|] eqn:Hd; simpl.
      * destruct (truthy dk).
        -- intros [= <-]. eexists. exact Hd.
        -- destruct ks as [|[k v] rest]; simpl; [discriminate |].
           intros [= <-]. exists k. simpl. rewrite String.eqb_refl.
           reflexivity.
      * destruct ks as [|[k v] rest]; simpl; [discriminate |].
        intros [= <-]. exists k. simpl. rewrite String.eqb_refl.
        reflexivity.
  - destruct (lookup "default" ks) as [dk|] eqn:Hd; simpl.
    + destruct (truthy dk).
      * intros [= <-]. eexists. exact Hd.
      * destruct ks as [|[k v] rest]; simpl; [discriminate |].
        intros [= <-]. exists k. simpl. rewrite String.eqb_refl.
        reflexivity.
    + destruct ks as [|[k v] rest]; simpl; [discriminate |].
      intros [= <-]. exists k. simpl. rewrite String.eqb_refl.
      reflexivity.
Qed.

Lemma selection_exists (ks : Keystore) (requested : option string) :
  ks <> [] -> exists key, selection_by_truthiness ks requested = Some key.
Proof.
  intros Hne. destruct ks as [|[k v] rest]; [congruence |].
  unfold selection_by_truthiness.
  change (option_map snd (hd_error ((k, v) :: rest))) with (Some v).
  generalize (lookup (property_name requested) ((k, v) :: rest))
             (lookup "default" ((k, v) :: rest)).
  intros a b. unfold js_or.
  destruct a as [[|? ?]|], b as [[|? ?]|]; simpl; eexists; reflexivity.
Qed.

Lemma find_first {A : Type} (p : A -> bool) (l : list A) (x : A) :
  find p l = Some x ->
  exists before after,
    l = before ++ x :: after /\ p x = true /\
    Forall (fun y => p y = false) before.
Proof.
  induction l as [|a l IH]; simpl; [discriminate |].
  destruct (p a) eqn:Hp.
  - intros [= ->]. exists [], l. repeat split; [exact Hp | constructor].
  - intros H. destruct (IH H) as (b & c & -> & Hx & Hb).
    exists (a :: b), c. repeat split; [exact Hx |].
    constructor; assumption.
Qed.

(** [keystore[k] === key] for key material [key]: the entry [k] holds
    that material. *)
Lemma same_value_material (ks : Keystore) (k : string) (key : KeyMaterial) :
  same_value (read (Some k) ks) (Some (Material key)) = true
  <-> lookup k ks = Some key.
Proof.
  unfold read. simpl.
  destruct (lookup k ks) as [m|]; simpl.
  - rewrite String.eqb_eq. split; congruence.
  - destruct (inherited k); simpl; split; discriminate.
Qed.

Lemma keys_lookup (ks : Keystore) (k : string) :
  In k (keys ks) -> exists m, lookup k ks = Some m.
Proof.
  induction ks as [|[k' v] rest IH]; simpl; [intros [] |].
  destruct (String.eqb_spec k' k) as [->|Hne].
  - intros _. eexists. reflexivity.
  - intros [H|H]; [congruence | apply IH, H].
Qed.

(** No entry of the keystore is identical to an inherited property. *)
Lemma signingKid_inherited (ks : Keystore) (r : string) :
  Auth.signingKid ks (Some (Inherited r)) = None.
Proof.
  unfold Auth.signingKid.
  destruct (find _ (keys ks)) as [id|] eqn:Hf; [| reflexivity].
  exfalso. destruct (find_some _ _ Hf) as [Hin Hp].
  destruct (keys_lookup ks id Hin) as [m Hm].
  rewrite (read_own _ _ Hm) in Hp. discriminate.
Qed.

(** The reverse lookup finds the first identifier, in [Object.keys]
    order, whose key material equals the selected key. *)
Lemma signingKid_first (ks : Keystore) (id0 : string) (key : KeyMaterial) :
  lookup id0 ks = Some key ->
  exists id before after,
    Auth.signingKid ks (Some (Material key)) = Some id /\
    lookup id ks = Some key /\
    keys ks = before ++ id :: after /\
    Forall (fun other => lookup other ks <> Some key) before.
Proof.
  intros Hl. unfold Auth.signingKid.
  destruct (find (fun k => same_value (read (Some k) ks) (Some (Material key)))
                 (keys ks))
    as [id|] eqn:Hf.
  - destruct (find_first _ _ Hf) as (b & c & Hk & Hp & Hb).
    exists id, b, c. repeat split; try assumption.
    + apply same_value_material, Hp.
    + rewrite Forall_forall in *. intros other Hin Heq.
      specialize (Hb other Hin). apply same_value_material in Heq. congruence.
  - exfalso.
    assert (Hin : In id0 (keys ks)).
    { apply wf_lookup in Hl. unfold keys.
      change id0 with (fst (id0, key)). apply in_map, Hl. }
    pose proof (find_none _ _ Hf id0 Hin) as Hn. simpl in Hn.
    apply (proj2 (same_value_material ks id0 key)) in Hl. congruence.
Qed.

Section Issuance.
Variable J : JwtLib.
Variable P : Payload.
Variable ks : Keystore.

Lemma legacy_createToken_signing_key (requested : option string) :
  Legacy.createToken J P ks requested
  = match sign_call J P (Auth.signing_key ks requested)
                    {| algorithm := None;
                       header_kid :=
                         Auth.signingKid ks (Auth.signing_key ks requested) |}
    with
    | inl t => Return t
    | inr err => Throw (SigningError err)
    end.
Proof. reflexivity. Qed.

(** A request for a name the keystore only inherits hands [jwt.sign]
    the inherited value, and no key identifier. *)
Lemma createToken_inherited (r : string) (alg : option string) :
  lookup r ks = None -> inherited r = true ->
  Auth.createToken J P ks (Some r) alg
  = Throw (SigningError
             (jwt_sign_refusal J P r
                {| algorithm :=
                     Some (match alg with Some a => a | None => "HS512" end);
                   header_kid := None |})) /\
  Legacy.createToken J P ks (Some r)
  = Throw (SigningError
             (jwt_sign_refusal J P r
                {| algorithm := None; header_kid := None |})).
Proof.
  intros Hl Hi. rewrite legacy_createToken_signing_key.
  unfold Auth.createToken.
  rewrite (signing_key_inherited _ _ Hl Hi), signingKid_inherited.
  split; reflexivity.
Qed.

Lemma createToken_law (requested alg : option string) :
  request_reads_inherited ks requested = false ->
  Auth.createToken J P ks requested alg
  = match jwt_sign J P (selection_by_truthiness ks requested)
                   {| algorithm :=
                        Some (match alg with Some a => a | None => "HS512" end);
                      header_kid :=
                        Auth.signingKid
                          ks (option_map Material
                                         (selection_by_truthiness ks requested))
                   |}
    with
    | inl t => Return t
    | inr err => Throw (SigningError err)
    end /\
  Legacy.createToken J P ks requested
  = match jwt_sign J P (selection_by_truthiness ks requested)
                   {| algorithm := None;
                      header_kid :=
                        Auth.signingKid
                          ks (option_map Material
                                         (selection_by_truthiness ks requested))
                   |}
    with
    | inl t => Return t
    | inr err => Throw (SigningError err)
    end.
Proof.
  intros H. rewrite legacy_createToken_signing_key.
  unfold Auth.createToken.
  rewrite (signing_key_law _ _ H), !sign_call_material.
  split; reflexivity.
Qed.
End Issuance.

(** C7, as stated, fails.  Asked for [constructor], which the keystore
    does not hold, [createToken] does not fall back on the first entry:
    it reads the property every object inherits, hands that function to
    [jwt.sign] and fails with a signing error.  Asked for no identifier,
    it reads the entry named ["undefined"] in preference to
    ["default"].  Asked for an identifier the keystore holds with empty
    key material, it signs with the default key. *)
Lemma issuance_departs_from_the_priority_order :
  (lookup "constructor" one_key = None /\
   select_as_specified one_key (Some "constructor") = Some "s3cret" /\
   Auth.signing_key one_key (Some "constructor")
   = Some (Inherited "constructor") /\
   Auth.createToken (TestJwt.lib 1000) [("sub", JStr "alice")] one_key
                    (Some "constructor") None
   = Throw (SigningError
              (TestJwt.sign_refusal
                 [("sub", JStr "alice")] "constructor"
                 {| algorithm := Some "HS512"; header_kid := None |})) /\
   Legacy.createToken (TestJwt.lib 1000) [("sub", JStr "alice")] one_key
                      (Some "constructor")
   = Throw (SigningError
              (TestJwt.sign_refusal
                 [("sub", JStr "alice")] "constructor"
                 {| algorithm := None; header_kid := None |}))) /\
  (select_as_specified named_undefined None = Some "d0" /\
   Auth.createToken (TestJwt.lib 1000) [("sub", JStr "alice")]
                    named_undefined None None
   = Return "undefined.sub='alice.HS512:u0" /\
   Legacy.createToken (TestJwt.lib 1000) [("sub", JStr "alice")]
                      named_undefined None
   = Return "undefined.sub='alice.HS256:u0") /\
  (select_as_specified empty_material (Some "k1") = Some EmptyString /\
   Auth.createToken (TestJwt.lib 1000) [("sub", JStr "alice")]
                    empty_material (Some "k1") None
   = Return "default.sub='alice.HS512:d0" /\
   Legacy.createToken (TestJwt.lib 1000) [("sub", JStr "alice")]
                      empty_material (Some "k1")
   = Return "default.sub='alice.HS256:d0").
Proof. repeat split. Qed.

(** C7, amended.  Both [createToken] functions select the signing key
    with [keystore[kid] || keystore.default || keystore[first key]].
    When the requested identifier names a property the keystore merely
    inherits, that inherited value is selected, [jwt.sign] refuses it
    and issuance fails with a signing error.  In every other case the
    selection is made among the entries of the keystore: the entry
    under the requested identifier -- under ["undefined"] when none is
    requested -- if its key material is non-empty, else ["default"] if
    its key material is non-empty, else the first entry.  On a
    well-formed keystore, where key material is never empty, and unless
    no identifier is requested while an entry is named ["undefined"],
    this is the priority order of the specification.  The token's
    header receives the first identifier of the keystore whose key
    material equals the selected key, which need not be the requested
    one.  On an empty keystore issuance fails with a signing error,
    given that [jwt.sign] refuses a missing key. *)
Theorem issuance_key_selection
        (J : JwtLib) (P : Payload) (ks : Keystore)
        (requested alg : option string) :
  (request_reads_inherited ks requested = false ->
   Auth.createToken J P ks requested alg
   = match jwt_sign J P (selection_by_truthiness ks requested)
                    {| algorithm :=
                         Some (match alg with Some a => a | None => "HS512" end);
                       header_kid :=
                         Auth.signingKid
                           ks (option_map Material
                                          (selection_by_truthiness ks requested))
                    |}
     with
     | inl t => Return t
     | inr err => Throw (SigningError err)
     end /\
   Legacy.createToken J P ks requested
   = match jwt_sign J P (selection_by_truthiness ks requested)
                    {| algorithm := None;
                       header_kid :=
                         Auth.signingKid
                           ks (option_map Material
                                          (selection_by_truthiness ks requested))
                    |}
     with
     | inl t => Return t
     | inr err => Throw (SigningError err)
     end) /\
  (wf_keystore ks ->
   (requested = None -> lookup "undefined" ks = None) ->
   selection_by_truthiness ks requested = select_as_specified ks requested) /\
  (forall key,
      selection_by_truthiness ks requested = Some key ->
      exists id before after,
        Auth.signingKid ks (Some (Material key)) = Some id /\
        lookup id ks = Some key /\
        keys ks = before ++ id :: after /\
        Forall (fun other => lookup other ks <> Some key) before) /\
  (forall r,
      requested = Some r -> lookup r ks = None -> inherited r = true ->
      Auth.createToken J P ks requested alg
      = Throw (SigningError
                 (jwt_sign_refusal J P r
                    {| algorithm :=
                         Some (match alg with Some a => a | None => "HS512" end);
                       header_kid := None |})) /\
      Legacy.createToken J P ks requested
      = Throw (SigningError
                 (jwt_sign_refusal J P r
                    {| algorithm := None; header_kid := None |}))) /\
  (ks = [] ->
   (forall o, exists e, jwt_sign J P None o = inr e) ->
   (exists e, Auth.createToken J P ks requested alg = Throw (SigningError e)) /\
   (exists e, Legacy.createToken J P ks requested = Throw (SigningError e))).
Proof.
  refine (conj _ (conj _ (conj _ (conj _ _)))).
  - apply createToken_law.
  - apply selection_as_specified.
  - intros key Hkey.
    destruct (selection_stored _ _ Hkey) as [id0 Hl].
    exact (signingKid_first ks id0 Hl).
  - intros r -> Hl Hi. apply createToken_inherited; assumption.
  - intros -> Hrefuse.
    destruct (request_reads_inherited [] requested) eqn:Hr.
    + destruct (request_reads_inherited_true _ _ Hr) as (r & -> & Hl & Hi).
      destruct (@createToken_inherited J P [] r alg Hl Hi) as [-> ->].
      split; eexists; reflexivity.
    + destruct (@createToken_law J P [] requested alg Hr) as [-> ->].
      assert (Hs : selection_by_truthiness [] requested = None)
        by reflexivity.
      rewrite Hs. split.
      * match goal with
        | |- context [jwt_sign J P None ?o] =>
            destruct (Hrefuse o) as [e He]; rewrite He; exists e; reflexivity
        end.
      * match goal with
        | |- context [jwt_sign J P None ?o] =>
            destruct (Hrefuse o) as [e He]; rewrite He; exists e; reflexivity
        end.
Qed.

Lemma sign_refuses_no_key (P : Payload) (o : SignOptions) :
  exists e, jwt_sign (TestJwt.lib 1000) P None o = inr e.
Proof. eexists. reflexivity. Qed.

Lemma issuance_key_selection_witness :
  Auth.createToken (TestJwt.lib 1000) [("sub", JStr "alice")] same_keys
                   (Some "k2") None
  = Return "default.sub='alice.HS512:same" /\
  Legacy.createToken (TestJwt.lib 1000) [("sub", JStr "alice")] two_keys
                     (Some "k9")
  = Return "k1.sub='alice.HS256:s3cret" /\
  selection_by_truthiness two_keys (Some "k2")
  = select_as_specified two_keys (Some "k2") /\
  Auth.createToken (TestJwt.lib 1000) [("sub", JStr "alice")] two_keys
                   (Some "toString") None
  = Throw (SigningError
             (TestJwt.sign_refusal
                [("sub", JStr "alice")] "toString"
                {| algorithm := Some "HS512"; header_kid := None |})) /\
  exists e,
    Auth.createToken (TestJwt.lib 1000) [("sub", JStr "alice")] [] None None
    = Throw (SigningError e).
Proof.
  refine (conj _ (conj _ (conj _ (conj _ _)))).
  - apply (proj1 (proj1 (@issuance_key_selection
                           (TestJwt.lib 1000) [("sub", JStr "alice")]
                           same_keys (Some "k2") None)
                        eq_refl)).
  - apply (proj2 (proj1 (@issuance_key_selection
                           (TestJwt.lib 1000) [("sub", JStr "alice")]
                           two_keys (Some "k9") None)
                        eq_refl)).
  - apply (proj1 (proj2 (@issuance_key_selection
                           (TestJwt.lib 1000) [("sub", JStr "alice")]
                           two_keys (Some "k2") None))).
    + concrete_keystore.
    + discriminate.
  - apply (proj1 (proj1 (proj2 (proj2 (proj2
             (@issuance_key_selection
                (TestJwt.lib 1000) [("sub", JStr "alice")]
                two_keys (Some "toString") None))))
             "toString" eq_refl eq_refl eq_refl)).
  - apply (proj1 (proj2 (proj2 (proj2 (proj2
             (@issuance_key_selection
                (TestJwt.lib 1000) [("sub", JStr "alice")] [] None None))))
             eq_refl (sign_refuses_no_key _))).
Defined.

(* ================================================================== *)
(** ** Issuing, then verifying *)

(** C6, as stated, fails.  A payload whose [exp] lies in the past is
    signed without complaint, and the token just issued is then rejected
    as expired. *)
Lemma expired_payload_does_not_round_trip :
  one_key <> [] /\
  Auth.createToken (TestJwt.lib 1000) [("exp", JNum 10)] one_key None None
  = Return "k1.exp=10.HS512:s3cret" /\
  Auth.verifyTokenAndReturnPayloadAndKid
    (TestJwt.lib 1000) no_env "k1.exp=10.HS512:s3cret" one_key None
  = (Throw (VerificationError TestJwt.TokenExpiredError),
     [(Material "s3cret", local_options)]).
Proof. repeat split. discriminate. Qed.

(** C6, amended.  For a payload and a non-empty well-formed keystore,
    suppose [jwt.sign] produces a token under the selected key, the
    token decodes with the key identifier that was put in its header,
    and [jwt.verify] accepts the token under the signing key with the
    options the engine derives, returning a payload.  Then verifying the
    issued token against the same keystore succeeds with that payload
    and with a matched key id that is in the keystore and holds the
    signing key; only that key is tried. *)
Theorem issue_then_verify
        (J : JwtLib) (env : Env) (P P' : Payload) (ks : Keystore)
        (requested : option string) (tok : string) :
  wf_keystore ks ->
  ks <> [] ->
  Auth.createToken J P ks requested None = Return tok ->
  (exists d, jwt_decode J tok = Some d /\
             kid (header d)
             = Auth.signingKid ks (Auth.signing_key ks requested)) ->
  (forall key,
      Auth.signing_key ks requested = Some (Material key) ->
      jwt_verify J tok key (Auth.jwtOptions env "local" (jwt_decode J tok))
      = inl P') ->
  exists id key,
    Auth.signing_key ks requested = Some (Material key) /\
    lookup id ks = Some key /\
    In id (keys ks) /\
    Auth.verifyTokenAndReturnPayloadAndKid J env tok ks None
    = (Return (P', Some id),
       [(Material key, Auth.jwtOptions env "local" (jwt_decode J tok))]).
Proof.
  intros Hwf Hne Hissued (d & Hd & Hkid) Hver.
  destruct (request_reads_inherited ks requested) eqn:Hr.
  { destruct (request_reads_inherited_true _ _ Hr) as (r & -> & Hl & Hi).
    destruct (@createToken_inherited J P ks r None Hl Hi) as [Hthrow _].
    rewrite Hthrow in Hissued. discriminate. }
  destruct (selection_exists requested Hne) as [key Hsel].
  destruct (selection_stored _ _ Hsel) as [id0 Hl0].
  assert (Hs : Auth.signing_key ks requested = Some (Material key))
    by (rewrite (signing_key_law _ _ Hr), Hsel; reflexivity).
  destruct (signingKid_first ks id0 Hl0) as (id & b & a & Hsk & Hl & Hk & _).
  exists id, key. repeat split; try assumption.
  - rewrite Hk. apply in_or_app. right. left. reflexivity.
  - rewrite Hs, Hsk in Hkid. specialize (Hver key Hs).
    rewrite Hd in Hver.
    destruct (@wf_entry ks id key Hwf Hl) as [Hidne Hkne].
    rewrite (@kid_strategy_returns J env tok ks None d id key P'
               Hidne Hkne Hd Hkid Hl Hver).
    rewrite Hd. reflexivity.
Qed.

Lemma issue_then_verify_witness :
  exists id key,
    Auth.signing_key two_keys (Some "k2") = Some (Material key) /\
    lookup id two_keys = Some key /\
    In id (keys two_keys) /\
    Auth.verifyTokenAndReturnPayloadAndKid
      (TestJwt.lib 1000) no_env "k2.sub='alice,exp=5000.HS512:other"
      two_keys None
    = (Return ([("sub", JStr "alice"); ("exp", JNum 5000)], Some id),
       [(Material key, local_options)]).
Proof.
  apply (@issue_then_verify
           (TestJwt.lib 1000) no_env
           [("sub", JStr "alice"); ("exp", JNum 5000)]
           [("sub", JStr "alice"); ("exp", JNum 5000)]
           two_keys (Some "k2") "k2.sub='alice,exp=5000.HS512:other").
  - concrete_keystore.
  - discriminate.
  - reflexivity.
  - eexists. split; reflexivity.
  - intros key [= <-]. reflexivity.
Defined.

(* ================================================================== *)
(** ** The three strategies, call by call *)

Section StrategyOutcomes.
Variable J : JwtLib.
Variable tok : string.
Variable ks : Keystore.
Variable decoded : option Decoded.
Variable o : JwtOptions.

Lemma verifyWithKid_target :
  Auth.verifyWithKid J tok ks decoded o tt
  = match kid_target decoded ks with
    | Some (k, key) => Auth.try_key J tok o key k
    | None => (failed (ErrString "kid verification failed"), [])
    end.
Proof.
  unfold Auth.verifyWithKid, kid_target.
  destruct decoded as [d|]; [| reflexivity].
  destruct (kid (header d)) as [k|]; [| reflexivity].
  destruct (truthy k); [| reflexivity].
  destruct (read (Some k) ks) as [key|]; [| reflexivity].
  destruct (truthy_value (Some key)); reflexivity.
Qed.

Lemma verifyWithDefault_target :
  Auth.verifyWithDefault J tok ks o tt
  = match default_target ks with
    | Some key => Auth.try_key J tok o key "default"
    | None => (failed (ErrString "default verification failed"), [])
    end.
Proof.
  unfold Auth.verifyWithDefault, default_target.
  destruct (read (Some "default") ks) as [key|]; [| reflexivity].
  destruct (truthy_value (Some key)); reflexivity.
Qed.

Lemma kid_declines :
  declines J tok o (option_map snd (kid_target decoded ks)) ->
  exists r, Auth.verifyWithKid J tok ks decoded o tt
            = (r, call_of o (option_map snd (kid_target decoded ks)))
            /\ fatal (v_error r) = None /\ v_payload r = None.
Proof.
  rewrite verifyWithKid_target.
  destruct (kid_target decoded ks) as [[k key]|]; simpl.
  - intros (e & He & Hf). unfold Auth.try_key. rewrite He.
    eexists. split; [reflexivity |]. simpl. rewrite Hf. auto.
  - intros _. eexists. split; [reflexivity |]. auto.
Qed.



Lemma engine_second_returns r1 l1 p l2 :
  Auth.verifyWithKid J tok ks decoded o tt = (r1, l1) ->
  fatal (v_error r1) = None -> v_payload r1 = None ->
  Auth.verifyWithDefault J tok ks o tt = (succeeded p "default", l2) ->
  conclude (engine J tok ks decoded o)
  = (Return (p, Some "default"), l1 ++ l2).
Proof.
  intros H1 Hf1 Hp1 H2. unfold engine, Auth.verifiers. simpl.
  rewrite H1, Hf1, Hp1, H2. reflexivity.
Qed.


Lemma engine_kid_target k key p :
  kid_target decoded ks = Some (k, Material key) ->
  jwt_verify J tok key o = inl p ->
  conclude (engine J tok ks decoded o)
  = (Return (p, Some k), [(Material key, o)]).
Proof.
  intros Ht Hv.
  rewrite (@engine_first_returns J tok ks decoded o p k
             [(Material key, o)]).
  - reflexivity.
  - rewrite verifyWithKid_target, Ht. unfold Auth.try_key, verify_call.
    rewrite Hv. reflexivity.
Qed.

Lemma engine_default_target dk p :
  declines J tok o (option_map snd (kid_target decoded ks)) ->
  default_target ks = Some (Material dk) ->
  jwt_verify J tok dk o = inl p ->
  conclude (engine J tok ks decoded o)
  = (Return (p, Some "default"),
     call_of o (option_map snd (kid_target decoded ks))
       ++ [(Material dk, o)]).
Proof.
  intros Hk Hd Hv. destruct (kid_declines Hk) as (r1 & H1 & Hf1 & Hp1).
  apply (engine_second_returns H1 Hf1 Hp1).
  rewrite verifyWithDefault_target, Hd. unfold Auth.try_key, verify_call.
  rewrite Hv. reflexivity.
Qed.


End StrategyOutcomes.

(** From the loop to the exported functions of both modules. *)
Lemma engine_verified
      (impl : Implementation) (J : JwtLib) (env : Env) (tok : string)
      (ks : Keystore) (p : Payload) (k : string) (calls : Attempts) :
  conclude (engine J tok ks (jwt_decode J tok) (constraints impl J env tok))
  = (Return (p, Some k), calls) ->
  verified impl J env tok ks p k calls.
Proof.
  intros H. unfold verified. split.
  - rewrite verify_with_engine, H. reflexivity.
  - destruct impl as [purpose|]; [| exact I]. simpl in H.
    unfold Auth.verifyTokenAndReturnKid.
    rewrite auth_verify_engine, H. split; reflexivity.
Qed.


Section EngineSoundness.
Variable J : JwtLib.
Variable tok : string.
Variable ks : Keystore.
Variable decoded : option Decoded.
Variable o : JwtOptions.

Lemma kid_target_stored k key :
  kid_target decoded ks = Some (k, Material key) -> In (k, key) ks.
Proof.
  unfold kid_target.
  destruct decoded as [d|]; [| discriminate].
  destruct (kid (header d)) as [k'|]; [| discriminate].
  destruct (truthy k'); [| discriminate].
  destruct (read (Some k') ks) as [key'|] eqn:Hl; [| discriminate].
  destruct (truthy_value (Some key')); [| discriminate].
  intros [= <- ->]. apply wf_lookup, read_material, Hl.
Qed.

Lemma default_target_stored key :
  default_target ks = Some (Material key) -> In ("default", key) ks.
Proof.
  unfold default_target.
  destruct (read (Some "default") ks) as [key'|] eqn:Hl; [| discriminate].
  destruct (truthy_value (Some key')); [| discriminate].
  intros [= ->]. apply wf_lookup, read_material, Hl.
Qed.

(** A call that returns a payload was made with key material: the
    library refuses anything else. *)
Lemma try_key_sound key k r l p :
  Auth.try_key J tok o key k = (r, l) -> v_payload r = Some p ->
  exists m, key = Material m /\ r = succeeded p k /\
            jwt_verify J tok m o = inl p /\ l = [(Material m, o)].
Proof.
  unfold Auth.try_key. destruct key as [m|n]; simpl.
  - destruct (jwt_verify J tok m o) as [p'|e] eqn:Hv; intros [= <- <-]; simpl.
    + intros [= ->]. exists m. repeat split. exact Hv.
    + discriminate.
  - intros [= <- <-]. discriminate.
Qed.

Lemma scan_sound entries r l p :
  Auth.scan J tok o entries = (r, l) -> v_payload r = Some p ->
  exists k key before,
    r = succeeded p k /\ In (k, key) entries /\
    String.eqb k "default" = false /\
    jwt_verify J tok key o = inl p /\ l = before ++ [(Material key, o)].
Proof.
  revert r l.
  induction entries as [|[k0 key0] rest IH]; intros r l; simpl.
  - intros [= <- <-]. discriminate.
  - destruct (String.eqb k0 "default") eqn:Hk0; simpl.
    + intros H Hp. destruct (IH r l H Hp) as (k & key & b & ? & ? & ? & ? & ?).
      exists k, key, b. auto.
    + destruct (jwt_verify J tok key0 o) as [p'|e] eqn:Hv.
      * intros [= <- <-]. simpl. intros [= ->].
        exists k0, key0, []. auto.
      * destruct (Auth.scan J tok o rest) as [r' l'].
        intros [= <- <-] Hp.
        destruct (IH r' l' eq_refl Hp) as (k & key & b & ? & ? & ? & ? & ->).
        exists k, key, ((Material key0, o) :: b). auto.
Qed.

(** The calls of a run are those of the first verifier, or of the first
    two, or of all three. *)
Lemma engine_calls_shape :
  let l1 := snd (Auth.verifyWithKid J tok ks decoded o tt) in
  let l2 := snd (Auth.verifyWithDefault J tok ks o tt) in
  let l3 := snd (Auth.scan J tok o ks) in
  snd (engine J tok ks decoded o) = l1 \/
  snd (engine J tok ks decoded o) = l1 ++ l2 \/
  snd (engine J tok ks decoded o) = l1 ++ l2 ++ l3.
Proof.
  unfold engine, Auth.verifiers, Auth.verifyWithKeystore. simpl.
  destruct (Auth.verifyWithKid _ _ _ _ _ _) as [r1 l1].
  destruct (Auth.verifyWithDefault _ _ _ _ _) as [r2 l2].
  destruct (Auth.scan _ _ _ _) as [r3 l3]. simpl.
  destruct (fatal (v_error r1)); [auto |].
  destruct (v_payload r1); [auto |].
  destruct (fatal (v_error r2)); simpl; [auto |].
  destruct (v_payload r2); simpl; [auto |].
  destruct (fatal (v_error r3)); [| destruct (v_payload r3)]; simpl;
    rewrite ?app_nil_r; auto.
Qed.

Lemma engine_success_cases p kopt calls :
  conclude (engine J tok ks decoded o) = (Return (p, kopt), calls) ->
  let v1 := Auth.verifyWithKid J tok ks decoded o tt in
  let v2 := Auth.verifyWithDefault J tok ks o tt in
  let v3 := Auth.scan J tok o ks in
  (v_payload (fst v1) = Some p /\ kopt = v_kid (fst v1) /\ calls = snd v1) \/
  (v_payload (fst v2) = Some p /\ kopt = v_kid (fst v2) /\
   calls = snd v1 ++ snd v2) \/
  (v_payload (fst v3) = Some p /\ kopt = v_kid (fst v3) /\
   calls = snd v1 ++ snd v2 ++ snd v3).
Proof.
  unfold conclude, engine, Auth.verifiers, Auth.verifyWithKeystore. simpl.
  destruct (Auth.verifyWithKid _ _ _ _ _ _) as [r1 l1].
  destruct (Auth.verifyWithDefault _ _ _ _ _) as [r2 l2].
  destruct (Auth.scan _ _ _ _) as [r3 l3]. simpl.
  destruct (fatal (v_error r1)); [discriminate |].
  destruct (v_payload r1) as [p1|] eqn:Hp1.
  { rewrite Hp1. intros [= <- <- <-]. left. auto. }
  destruct (fatal (v_error r2)); [discriminate |].
  destruct (v_payload r2) as [p2|] eqn:Hp2.
  { rewrite Hp2. intros [= <- <- <-]. right. left. auto. }
  destruct (fatal (v_error r3)); [discriminate |].
  destruct (v_payload r3) as [p3|] eqn:Hp3.
  - rewrite Hp3. intros [= <- <- <-]. right. right. auto.
  - rewrite Hp3. rewrite ?app_nil_r. discriminate.
Qed.

Lemma engine_sound p kopt calls :
  conclude (engine J tok ks decoded o) = (Return (p, kopt), calls) ->
  exists k key before,
    kopt = Some k /\ In (k, key) ks /\ jwt_verify J tok key o = inl p /\
    calls = before ++ [(Material key, o)].
Proof.
  intros H. destruct (engine_success_cases H) as [H1|[H2|H3]].
  - destruct H1 as (Hp & -> & ->). revert Hp.
    rewrite verifyWithKid_target.
    destruct (kid_target decoded ks) as [[k key]|] eqn:Ht; [| discriminate].
    destruct (Auth.try_key J tok o key k) as [r l] eqn:Htry. simpl.
    intros Hp.
    destruct (try_key_sound _ _ Htry Hp) as (m & -> & -> & Hv & ->).
    exists k, m, []. repeat split; auto. apply kid_target_stored, Ht.
  - destruct H2 as (Hp & -> & ->). revert Hp.
    rewrite verifyWithDefault_target.
    destruct (default_target ks) as [dk|] eqn:Hd; [| discriminate].
    destruct (Auth.try_key J tok o dk "default") as [r l] eqn:Htry. simpl.
    intros Hp.
    destruct (try_key_sound _ _ Htry Hp) as (m & -> & -> & Hv & ->).
    exists "default", m, (snd (Auth.verifyWithKid J tok ks decoded o tt)).
    repeat split; auto. apply default_target_stored, Hd.
  - destruct H3 as (Hp & -> & ->).
    destruct (Auth.scan J tok o ks) as [r l] eqn:Hs. simpl in *.
    destruct (scan_sound _ Hs Hp) as (k & key & b & -> & Hin & _ & Hv & ->).
    exists k, key,
      (snd (Auth.verifyWithKid J tok ks decoded o tt)
         ++ snd (Auth.verifyWithDefault J tok ks o tt) ++ b).
    repeat split; auto. rewrite <- !app_assoc. reflexivity.
Qed.
End EngineSoundness.

Lemma default_target_of (ks : Keystore) (dk : KeyMaterial) :
  lookup "default" ks = Some dk -> dk <> EmptyString ->
  default_target ks = Some (Material dk).
Proof.
  intros Hl Hne. unfold default_target.
  rewrite (read_own _ _ Hl). simpl.
  rewrite (truthy_nonempty Hne). reflexivity.
Qed.

Lemma NoDup_lookup (ks : Keystore) (k : string) (key : KeyMaterial) :
  NoDup (keys ks) -> In (k, key) ks -> lookup k ks = Some key.
Proof.
  induction ks as [|[k0 key0] rest IH]; simpl; [intros _ [] |].
  intros Hnd [[= -> ->]|Hin].
  - rewrite String.eqb_refl. reflexivity.
  - inversion Hnd as [|? ? Hnot Hnd']; subst.
    destruct (String.eqb_spec k0 k) as [->|Hne].
    + exfalso. apply Hnot. change k with (fst (k, key)).
      apply in_map, Hin.
    + apply IH; assumption.
Qed.

(* ================================================================== *)
(** ** Which key answers *)

(** X1.  When the first verifier makes no call, or its call fails
    without being fatal, and [jwt.verify] accepts the token under the
    non-empty ["default"] key, verification succeeds with matched key id
    ["default"]; the default key is the last key tried and no other
    entry is scanned. *)
Theorem default_key_answers
        (impl : Implementation) (J : JwtLib) (env : Env) (tok : string)
        (ks : Keystore) (dk : KeyMaterial) (p : Payload) :
  declines J tok (constraints impl J env tok)
           (option_map snd (kid_target (jwt_decode J tok) ks)) ->
  lookup "default" ks = Some dk -> dk <> EmptyString ->
  jwt_verify J tok dk (constraints impl J env tok) = inl p ->
  verified impl J env tok ks p "default"
           (call_of (constraints impl J env tok)
                    (option_map snd (kid_target (jwt_decode J tok) ks))
              ++ [(Material dk, constraints impl J env tok)]).
Proof.
  intros Hk Hl Hne Hv. apply engine_verified.
  eapply engine_default_target;
    [exact Hk | apply default_target_of; assumption | exact Hv].
Qed.

Lemma default_key_answers_witness :
  verified (AuthJs None) (TestJwt.lib 1000) no_env
           "k2.sub='alice.HS512:s3cret" with_default
           [("sub", JStr "alice")] "default"
           [(Material "other", local_options);
            (Material "s3cret", local_options)].
Proof.
  apply (@default_key_answers (AuthJs None) (TestJwt.lib 1000) no_env
           "k2.sub='alice.HS512:s3cret" with_default "s3cret"
           [("sub", JStr "alice")]).
  - eexists. split; reflexivity.
  - reflexivity.
  - discriminate.
  - reflexivity.
Defined.






Section CallsAreBounded.
Variable J : JwtLib.
Variable tok : string.
Variable ks : Keystore.
Variable decoded : option Decoded.
Variable o : JwtOptions.

Local Abbreviation stored :=
  (fun (entries : Keystore) (call : KeyValue * JwtOptions) =>
     key_from decoded entries (fst call)).

Lemma try_key_calls_once key k :
  snd (Auth.try_key J tok o key k) = [(key, o)].
Proof.
  unfold Auth.try_key. destruct (verify_call J tok key o); reflexivity.
Qed.

Lemma kid_target_from k key :
  kid_target decoded ks = Some (k, key) -> key_from decoded ks key.
Proof.
  unfold kid_target.
  destruct decoded as [d|]; [| discriminate].
  destruct (kid (header d)) as [k'|] eqn:HK; [| discriminate].
  destruct (truthy k'); [| discriminate].
  destruct (read (Some k') ks) as [key'|] eqn:Hl; [| discriminate].
  destruct (truthy_value (Some key')); [| discriminate].
  intros [= <- <-]. destruct key' as [m|n]; simpl.
  - exists k'. apply wf_lookup, read_material, Hl.
  - destruct (read_inherited_inv _ _ Hl) as (-> & Hnone & Hi).
    repeat split; try assumption. exists d. auto.
Qed.

Lemma default_target_material key :
  default_target ks = Some key ->
  exists m, key = Material m /\ In ("default", m) ks.
Proof.
  unfold default_target. rewrite read_default.
  destruct (lookup "default" ks) as [m|] eqn:Hl; simpl; [| discriminate].
  destruct (truthy m); [| discriminate].
  intros [= <-]. exists m. split; [reflexivity | apply wf_lookup, Hl].
Qed.

Lemma kid_calls_stored :
  Forall (stored ks) (snd (Auth.verifyWithKid J tok ks decoded o tt)) /\
  length (snd (Auth.verifyWithKid J tok ks decoded o tt)) <= 1.
Proof.
  rewrite verifyWithKid_target.
  destruct (kid_target decoded ks) as [[k key]|] eqn:Ht.
  - rewrite try_key_calls_once. split; [| simpl; lia].
    constructor; [| constructor]. simpl.
    eapply kid_target_from. exact Ht.
  - split; [constructor | simpl; lia].
Qed.

Lemma default_calls_stored :
  Forall (stored ks) (snd (Auth.verifyWithDefault J tok ks o tt)) /\
  length (snd (Auth.verifyWithDefault J tok ks o tt)) <= 1.
Proof.
  rewrite verifyWithDefault_target.
  destruct (default_target ks) as [key|] eqn:Ht.
  - rewrite try_key_calls_once. split; [| simpl; lia].
    constructor; [| constructor]. simpl.
    destruct (default_target_material Ht) as (m & -> & Hin).
    exists "default". exact Hin.
  - split; [constructor | simpl; lia].
Qed.

Lemma scan_calls_stored entries :
  Forall (fun call => exists k m, fst call = Material m /\ In (k, m) entries)
         (snd (Auth.scan J tok o entries)) /\
  length (snd (Auth.scan J tok o entries)) <= length entries.
Proof.
  induction entries as [|[k0 key0] rest [IHs IHl]]; simpl.
  - split; [constructor | lia].
  - assert (Hweak :
             forall l : Attempts,
               Forall (fun call => exists k m,
                           fst call = Material m /\ In (k, m) rest) l ->
               Forall (fun call => exists k m,
                           fst call = Material m /\
                           In (k, m) ((k0, key0) :: rest)) l).
    { intros l Hl. eapply Forall_impl; [| exact Hl].
      intros call (k & m & E & Hin). exists k, m. split; [exact E |].
      right. exact Hin. }
    destruct (negb (String.eqb k0 "default")).
    + destruct (jwt_verify J tok key0 o).
      * simpl. split; [| lia]. constructor; [| constructor].
        exists k0, key0. split; [reflexivity | left; reflexivity].
      * destruct (Auth.scan J tok o rest) as [r l]. simpl in *.
        split; [| lia]. constructor; [| apply Hweak, IHs].
        exists k0, key0. split; [reflexivity | left; reflexivity].
    + split; [apply Hweak, IHs | lia].
Qed.

Lemma engine_calls_stored :
  Forall (stored ks) (snd (engine J tok ks decoded o)) /\
  length (snd (engine J tok ks decoded o)) <= length ks + 2.
Proof.
  destruct kid_calls_stored as [F1 L1].
  destruct default_calls_stored as [F2 L2].
  destruct (scan_calls_stored ks) as [F3' L3].
  assert (F3 : Forall (stored ks) (snd (Auth.scan J tok o ks))).
  { eapply Forall_impl; [| exact F3'].
    intros [key o'] (k & m & E & Hin). simpl in E. subst key.
    exists k. exact Hin. }
  pose proof (engine_calls_shape J tok ks decoded o) as Hs. simpl in Hs.
  destruct Hs as [-> | [-> | ->]].
  - split; [exact F1 | lia].
  - split; [apply Forall_app; auto | rewrite length_app; lia].
  - split; [apply Forall_app; split; [| apply Forall_app]; auto
           | rewrite !length_app; lia].
Qed.
End CallsAreBounded.

(** X4.  Whenever verification returns a payload, [jwt.verify] accepted
    the token under the key material of an entry of the keystore, with
    the options of that implementation, and that call was the last one
    made.  In [auth.js] the matched key id is the identifier of that
    entry, so [lookupKey] gives the accepting key back. *)
Theorem success_means_verified
        (impl : Implementation) (J : JwtLib) (env : Env) (tok : string)
        (ks : Keystore) (p : Payload) (calls : Attempts) :
  verify_with impl J env tok ks = (Return p, calls) ->
  exists k key before,
    In (k, key) ks /\
    jwt_verify J tok key (constraints impl J env tok) = inl p /\
    calls = before ++ [(Material key, constraints impl J env tok)] /\
    match impl with
    | AuthJs purpose =>
        Auth.verifyTokenAndReturnPayloadAndKid J env tok ks purpose
        = (Return (p, Some k), calls) /\
        (NoDup (keys ks) -> Auth.lookupKey k ks = Some (Material key))
    | Older => True
    end.
Proof.
  intros H. rewrite verify_with_engine in H.
  destruct (conclude (engine J tok ks (jwt_decode J tok)
                             (constraints impl J env tok)))
    as [[[p' kopt]|e] l] eqn:Hc; simpl in H; [| discriminate].
  injection H as -> ->.
  destruct (engine_sound _ _ _ _ _ Hc) as (k & key & b & -> & Hin & Hv & ->).
  exists k, key, b. repeat split; try assumption.
  destruct impl as [purpose|]; [| exact I]. split.
  - rewrite auth_verify_engine. exact Hc.
  - intros Hnd. apply read_own, NoDup_lookup; assumption.
Qed.

Lemma success_means_verified_witness :
  exists k key before,
    In (k, key) same_keys /\
    jwt_verify (TestJwt.lib 1000) fresh_labelled key
               (constraints (AuthJs None) (TestJwt.lib 1000) no_env
                            fresh_labelled)
    = inl [("sub", JStr "alice")] /\
    [(Material "same", local_options)]
    = before ++ [(Material key,
                  constraints (AuthJs None) (TestJwt.lib 1000) no_env
                              fresh_labelled)] /\
    (Auth.verifyTokenAndReturnPayloadAndKid
       (TestJwt.lib 1000) no_env fresh_labelled same_keys None
     = (Return ([("sub", JStr "alice")], Some k),
        [(Material "same", local_options)]) /\
     (NoDup (keys same_keys) ->
      Auth.lookupKey k same_keys = Some (Material key))).
Proof.
  apply (@success_means_verified
           (AuthJs None) (TestJwt.lib 1000) no_env fresh_labelled same_keys
           [("sub", JStr "alice")] [(Material "same", local_options)]).
  reflexivity.
Defined.

(** X5.  Every key handed to [jwt.verify] is the key material of some
    entry of the keystore or, when the token's header names a property
    that the keystore does not hold but inherits, that inherited
    property; a verification makes at most two calls more than the
    keystore has entries. *)
Theorem only_stored_keys_are_tried
        (impl : Implementation) (J : JwtLib) (env : Env) (tok : string)
        (ks : Keystore) :
  Forall (fun call => key_from (jwt_decode J tok) ks (fst call))
         (snd (verify_with impl J env tok ks)) /\
  length (snd (verify_with impl J env tok ks)) <= length ks + 2.
Proof.
  rewrite verify_with_engine, payload_only_calls, conclude_calls.
  apply engine_calls_stored.
Qed.

(** X6.  The algorithms a call of [jwt.verify] is allowed to accept are
    fixed by the purpose alone, never by the token: [HS512] for
    ["local"] and when no purpose is given, [ES512] for ["public"], none
    at all for any other purpose; the older module always allows
    [HS256] only. *)
Theorem algorithms_fixed_by_purpose
        (J : JwtLib) (env : Env) (tok : string) (ks : Keystore)
        (purpose : option string) :
  Forall (fun call =>
            algorithms (snd call)
            = match purpose with
              | None => ["HS512"]
              | Some pu =>
                  if String.eqb pu "local" then ["HS512"]
                  else if String.eqb pu "public" then ["ES512"]
                  else []
              end)
         (snd (Auth.verifyTokenAndReturnPayloadAndKid J env tok ks purpose)) /\
  Forall (fun call => algorithms (snd call) = ["HS256"])
         (snd (Legacy.verifyToken J env tok ks)).
Proof.
  split.
  - rewrite auth_verify_engine, conclude_calls.
    eapply Forall_impl; [| apply engine_calls].
    intros call ->. destruct purpose; reflexivity.
  - rewrite legacy_verify_engine, payload_only_calls, conclude_calls.
    eapply Forall_impl; [| apply engine_calls].
    intros call ->. reflexivity.
Qed.

(* ================================================================== *)
(** ** The order of the keystore *)

Lemma non_default_In (ks : Keystore) (k : string) (key : KeyMaterial) :
  In (k, key) (non_default ks) <-> In (k, key) ks /\ k <> "default".
Proof.
  unfold non_default. rewrite filter_In. simpl.
  rewrite negb_true_iff, String.eqb_neq. tauto.
Qed.

Lemma keys_permutation (ks ks' : Keystore) :
  Permutation ks ks' -> Permutation (keys ks) (keys ks').
Proof. intros H. unfold keys. apply Permutation_map, H. Qed.

Lemma lookup_permutation (ks ks' : Keystore) (id : string) :
  Permutation ks ks' -> NoDup (keys ks) -> lookup id ks = lookup id ks'.
Proof.
  intros Hp Hnd.
  assert (Hnd' : NoDup (keys ks')).
  { eapply Permutation_NoDup; [apply keys_permutation, Hp | exact Hnd]. }
  destruct (lookup id ks) as [key|] eqn:Hl.
  - symmetry. apply NoDup_lookup; [exact Hnd' |].
    eapply Permutation_in; [exact Hp | apply wf_lookup, Hl].
  - destruct (lookup id ks') as [key'|] eqn:Hl'; [| reflexivity].
    assert (Hin : In (id, key') ks).
    { eapply Permutation_in; [apply Permutation_sym, Hp | apply wf_lookup, Hl']. }
    rewrite (NoDup_lookup _ _ _ Hnd Hin) in Hl. discriminate.
Qed.

Lemma read_permutation (ks ks' : Keystore) (id : option string) :
  Permutation ks ks' -> NoDup (keys ks) -> read id ks = read id ks'.
Proof.
  intros Hp Hnd. unfold read.
  rewrite (lookup_permutation _ Hp Hnd). reflexivity.
Qed.

Section ScanOrder.
Variable J : JwtLib.
Variable tok : string.
Variable o : JwtOptions.

Lemma engine_result ks decoded :
  fst (engine J tok ks decoded o)
  = loop_result (fst (Auth.verifyWithKid J tok ks decoded o tt))
                (fst (Auth.verifyWithDefault J tok ks o tt))
                (fst (Auth.scan J tok o ks)).
Proof.
  unfold engine, loop_result, Auth.verifiers, Auth.verifyWithKeystore. simpl.
  destruct (Auth.verifyWithKid _ _ _ _ _ _) as [r1 l1].
  destruct (Auth.verifyWithDefault _ _ _ _ _) as [r2 l2].
  destruct (Auth.scan _ _ _ _) as [r3 l3]. simpl.
  destruct (fatal (v_error r1)); [reflexivity |].
  destruct (v_payload r1); [reflexivity |].
  destruct (fatal (v_error r2)); [reflexivity |].
  destruct (v_payload r2); [reflexivity |].
  destruct (fatal (v_error r3)); [reflexivity |].
  destruct (v_payload r3); reflexivity.
Qed.

(** A scan that yields no payload found every entry failing. *)
Lemma scan_empty_handed entries :
  v_payload (fst (Auth.scan J tok o entries)) = None ->
  fst (Auth.scan J tok o entries)
  = failed (ErrString "all verification failed") /\
  forall k key, In (k, key) (non_default entries) ->
                exists e, jwt_verify J tok key o = inr e.
Proof.
  induction entries as [|[k0 key0] rest IH]; simpl.
  - intros _. split; [reflexivity | intros k key []].
  - unfold non_default. simpl.
    destruct (negb (String.eqb k0 "default")); simpl.
    + destruct (jwt_verify J tok key0 o) as [p|e] eqn:Hv; [discriminate |].
      destruct (Auth.scan J tok o rest) as [r l]. simpl in *.
      intros Hp. destruct (IH Hp) as [-> Hall]. split; [reflexivity |].
      intros k key [[= <- <-]|Hin]; [exists e; exact Hv | exact (Hall k key Hin)].
    + exact IH.
Qed.

(** When at most one scanned entry verifies, the scan finds it wherever
    it stands. *)
Lemma scan_finds entries k key p :
  (forall e1 e2 p1 p2,
      In e1 (non_default entries) -> In e2 (non_default entries) ->
      jwt_verify J tok (snd e1) o = inl p1 ->
      jwt_verify J tok (snd e2) o = inl p2 -> e1 = e2) ->
  In (k, key) (non_default entries) ->
  jwt_verify J tok key o = inl p ->
  fst (Auth.scan J tok o entries) = succeeded p k.
Proof.
  induction entries as [|[k0 key0] rest IH]; intros Huniq Hin Hv.
  - destruct Hin.
  - unfold non_default in *. simpl in *.
    destruct (negb (String.eqb k0 "default")); simpl in *.
    + destruct (jwt_verify J tok key0 o) as [p0|e0] eqn:Hv0.
      * assert (Heq : (k0, key0) = (k, key)).
        { apply (Huniq (k0, key0) (k, key) p0 p); auto. }
        injection Heq as -> ->. rewrite Hv in Hv0. injection Hv0 as ->.
        reflexivity.
      * destruct Hin as [[= -> ->]|Hin]; [congruence |].
        destruct (Auth.scan J tok o rest) as [r l] eqn:Hs. simpl in *.
        apply IH; auto.
        intros e1 e2 p1 p2 H1 H2. apply Huniq; auto.
    + apply IH; auto.
Qed.

Lemma scan_order_free ks ks' :
  Permutation ks ks' ->
  (forall e1 e2 p1 p2,
      In e1 (non_default ks) -> In e2 (non_default ks) ->
      jwt_verify J tok (snd e1) o = inl p1 ->
      jwt_verify J tok (snd e2) o = inl p2 -> e1 = e2) ->
  fst (Auth.scan J tok o ks) = fst (Auth.scan J tok o ks').
Proof.
  intros Hp Huniq.
  assert (Hin : forall e, In e (non_default ks') -> In e (non_default ks)).
  { intros [k key] H. apply non_default_In in H. apply non_default_In.
    destruct H as [H Hne]. split; [| exact Hne].
    eapply Permutation_in; [apply Permutation_sym, Hp | exact H]. }
  assert (Hin' : forall e, In e (non_default ks) -> In e (non_default ks')).
  { intros [k key] H. apply non_default_In in H. apply non_default_In.
    destruct H as [H Hne]. split; [| exact Hne].
    eapply Permutation_in; [exact Hp | exact H]. }
  destruct (v_payload (fst (Auth.scan J tok o ks))) as [p|] eqn:Hpay.
  - destruct (Auth.scan J tok o ks) as [r l] eqn:Hs. simpl in *.
    destruct (scan_sound _ _ _ _ Hs Hpay)
      as (k & key & b & -> & Hk & Hne & Hv & _).
    symmetry. apply (@scan_finds ks' k key p).
    + intros e1 e2 p1 p2 H1 H2. apply Huniq; auto.
    + apply Hin'. apply non_default_In. split; [exact Hk |].
      apply String.eqb_neq, Hne.
    + exact Hv.
  - destruct (scan_empty_handed ks Hpay) as [-> Hall].
    rewrite (@scan_all_fail J tok o ks'); [reflexivity |].
    intros id key H. exact (Hall id key (Hin (id, key) H)).
Qed.
End ScanOrder.

Lemma engine_order_free
      (J : JwtLib) (tok : string) (o : JwtOptions)
      (decoded : option Decoded) (ks ks' : Keystore) :
  Permutation ks ks' -> NoDup (keys ks) ->
  (forall e1 e2 p1 p2,
      In e1 (non_default ks) -> In e2 (non_default ks) ->
      jwt_verify J tok (snd e1) o = inl p1 ->
      jwt_verify J tok (snd e2) o = inl p2 -> e1 = e2) ->
  fst (conclude (engine J tok ks decoded o))
  = fst (conclude (engine J tok ks' decoded o)).
Proof.
  intros Hp Hnd Huniq.
  assert (Hfst : fst (engine J tok ks decoded o)
                 = fst (engine J tok ks' decoded o)).
  { rewrite !engine_result.
    rewrite (scan_order_free J tok o Hp Huniq).
    rewrite !verifyWithKid_target, !verifyWithDefault_target.
    unfold kid_target, default_target.
    destruct decoded as [d|]; [destruct (kid (header d)) as [k|] |];
      rewrite <- ?(read_permutation _ Hp Hnd); reflexivity. }
  unfold conclude.
  destruct (engine J tok ks decoded o) as [c l].
  destruct (engine J tok ks' decoded o) as [c' l']. simpl in Hfst. subst c'.
  destruct c as [r|e]; [destruct (v_payload r) |]; reflexivity.
Qed.

Lemma payload_only_fst
      (c c' : Completion UnauthorizedError (Payload * option string) * Attempts) :
  fst c = fst c' -> fst (payload_only c) = fst (payload_only c').
Proof.
  destruct c as [[[p k]|e] l], c' as [[[p' k']|e'] l']; simpl;
    intros [= ]; subst; reflexivity.
Qed.

(** X7.  If at most one entry other than ["default"] verifies the
    token, the outcome of verification -- payload, matched key id or
    error -- does not depend on the order in which the keystore
    enumerates its entries. *)
Theorem keystore_order_is_immaterial
        (impl : Implementation) (J : JwtLib) (env : Env) (tok : string)
        (ks ks' : Keystore) :
  Permutation ks ks' ->
  NoDup (keys ks) ->
  (forall e1 e2 p1 p2,
      In e1 (non_default ks) -> In e2 (non_default ks) ->
      jwt_verify J tok (snd e1) (constraints impl J env tok) = inl p1 ->
      jwt_verify J tok (snd e2) (constraints impl J env tok) = inl p2 ->
      e1 = e2) ->
  fst (verify_with impl J env tok ks) = fst (verify_with impl J env tok ks') /\
  match impl with
  | AuthJs purpose =>
      fst (Auth.verifyTokenAndReturnPayloadAndKid J env tok ks purpose)
      = fst (Auth.verifyTokenAndReturnPayloadAndKid J env tok ks' purpose)
  | Older => True
  end.
Proof.
  intros Hp Hnd Huniq.
  pose proof (@engine_order_free J tok (constraints impl J env tok)
                (jwt_decode J tok) ks ks' Hp Hnd Huniq) as H.
  split.
  - rewrite !verify_with_engine. apply payload_only_fst, H.
  - destruct impl as [purpose|]; [| exact I].
    rewrite !auth_verify_engine. exact H.
Qed.

Lemma one_match_in_two_keys
      (e1 e2 : string * KeyMaterial) (p1 p2 : Payload) :
  In e1 (non_default two_keys) -> In e2 (non_default two_keys) ->
  jwt_verify (TestJwt.lib 1000) ".sub='alice.HS512:other" (snd e1)
             local_options = inl p1 ->
  jwt_verify (TestJwt.lib 1000) ".sub='alice.HS512:other" (snd e2)
             local_options = inl p2 ->
  e1 = e2.
Proof.
  simpl. intros [<-|[<-|[]]] [<-|[<-|[]]] H1 H2;
    try reflexivity; try discriminate H1; discriminate H2.
Qed.

Lemma keystore_order_is_immaterial_witness :
  fst (Auth.verifyTokenAndReturnPayloadAndKid
         (TestJwt.lib 1000) no_env ".sub='alice.HS512:other" two_keys None)
  = fst (Auth.verifyTokenAndReturnPayloadAndKid
           (TestJwt.lib 1000) no_env ".sub='alice.HS512:other"
           [("k2", "other"); ("k1", "s3cret")] None).
Proof.
  apply (proj2 (@keystore_order_is_immaterial
                  (AuthJs None) (TestJwt.lib 1000) no_env
                  ".sub='alice.HS512:other" two_keys
                  [("k2", "other"); ("k1", "s3cret")]
                  (perm_swap _ _ _)
                  ltac:(repeat (constructor; [simpl; intuition discriminate |]);
                        constructor)
                  one_match_in_two_keys)).
Defined.

(* ================================================================== *)
(** ** The two engines are one algorithm *)

Section OptionsCongruence.
Variable J : JwtLib.
Variable tok : string.
Variable ks : Keystore.
Variable decoded : option Decoded.
Variables o1 o2 : JwtOptions.
Hypothesis same_verdicts :
  forall key, verify_call J tok key o1 = verify_call J tok key o2.

Local Abbreviation alike :=
  (fun (a b : VerifierResult * Attempts) =>
     fst a = fst b /\ map fst (snd a) = map fst (snd b)).

Lemma try_key_alike key k :
  alike (Auth.try_key J tok o1 key k) (Auth.try_key J tok o2 key k).
Proof.
  unfold Auth.try_key. rewrite same_verdicts.
  destruct (verify_call J tok key o2); split; reflexivity.
Qed.

Lemma scan_alike entries :
  alike (Auth.scan J tok o1 entries) (Auth.scan J tok o2 entries).
Proof.
  induction entries as [|[k key] rest [IHr IHl]]; simpl; [split; reflexivity |].
  destruct (negb (String.eqb k "default")); [| split; assumption].
  pose proof (same_verdicts (Material key)) as E. simpl in E. rewrite E.
  destruct (jwt_verify J tok key o2); [split; reflexivity |].
  destruct (Auth.scan J tok o1 rest) as [r l].
  destruct (Auth.scan J tok o2 rest) as [r' l']. simpl in *.
  split; [assumption | f_equal; assumption].
Qed.

Lemma engine_alike :
  fst (engine J tok ks decoded o1) = fst (engine J tok ks decoded o2) /\
  map fst (snd (engine J tok ks decoded o1))
  = map fst (snd (engine J tok ks decoded o2)).
Proof.
  assert (H1 : alike (Auth.verifyWithKid J tok ks decoded o1 tt)
                     (Auth.verifyWithKid J tok ks decoded o2 tt)).
  { rewrite !verifyWithKid_target.
    destruct (kid_target decoded ks) as [[k key]|];
      [apply try_key_alike | split; reflexivity]. }
  assert (H2 : alike (Auth.verifyWithDefault J tok ks o1 tt)
                     (Auth.verifyWithDefault J tok ks o2 tt)).
  { rewrite !verifyWithDefault_target.
    destruct (default_target ks) as [key|];
      [apply try_key_alike | split; reflexivity]. }
  pose proof (scan_alike ks) as H3.
  unfold engine, Auth.verifiers, Auth.verifyWithKeystore. simpl.
  destruct (Auth.verifyWithKid J tok ks decoded o1 tt) as [r1 l1].
  destruct (Auth.verifyWithKid J tok ks decoded o2 tt) as [r1' l1'].
  destruct (Auth.verifyWithDefault J tok ks o1 tt) as [r2 l2].
  destruct (Auth.verifyWithDefault J tok ks o2 tt) as [r2' l2'].
  destruct (Auth.scan J tok o1 ks) as [r3 l3].
  destruct (Auth.scan J tok o2 ks) as [r3' l3']. simpl in *.
  destruct H1 as [<- E1], H2 as [<- E2], H3 as [<- E3].
  destruct (fatal (v_error r1)); [auto |].
  destruct (v_payload r1); [auto |].
  destruct (fatal (v_error r2)); simpl;
    [rewrite !map_app, E1, E2; auto |].
  destruct (v_payload r2); simpl;
    [rewrite !map_app, E1, E2; auto |].
  destruct (fatal (v_error r3)); [| destruct (v_payload r3)]; simpl;
    rewrite !map_app, E1, E2, ?E3; auto.
Qed.
End OptionsCongruence.

Lemma conclude_alike
      (c c' : Completion UnauthorizedError VerifierResult * Attempts) :
  fst c = fst c' -> map fst (snd c) = map fst (snd c') ->
  fst (payload_only (conclude c)) = fst (payload_only (conclude c')) /\
  map fst (snd (payload_only (conclude c)))
  = map fst (snd (payload_only (conclude c'))).
Proof.
  destruct c as [c l], c' as [c' l']. simpl. intros <- Hl.
  destruct c as [r|e]; simpl; [destruct (v_payload r) |]; simpl; auto.
Qed.

(** X8.  The two modules run the same algorithm: for a token on which
    [jwt.verify] gives, key by key, the same verdict under the options
    of the older module as under those of [auth.js], the two
    [verifyToken] functions end the same way and try the same keys in
    the same order. *)
Theorem engines_differ_only_in_options
        (J : JwtLib) (env : Env) (tok : string) (ks : Keystore)
        (purpose : option string) :
  (forall key,
      verify_call J tok key (Legacy.options env)
      = verify_call J tok key
                    (Auth.jwtOptions env (Auth.default_purpose purpose)
                                     (jwt_decode J tok))) ->
  fst (Legacy.verifyToken J env tok ks)
  = fst (Auth.verifyToken J env tok ks purpose) /\
  map fst (snd (Legacy.verifyToken J env tok ks))
  = map fst (snd (Auth.verifyToken J env tok ks purpose)).
Proof.
  intros H.
  change (Auth.verifyToken J env tok ks purpose)
    with (verify_with (AuthJs purpose) J env tok ks).
  rewrite verify_with_engine, legacy_verify_engine.
  destruct (@engine_alike J tok ks (jwt_decode J tok) _ _ H) as [Hf Hs].
  apply conclude_alike; assumption.
Qed.

Lemma engines_differ_only_in_options_witness :
  fst (Legacy.verifyToken (TestJwt.lib 1000) no_env "garbage" with_default)
  = fst (Auth.verifyToken (TestJwt.lib 1000) no_env "garbage" with_default
                          None).
Proof.
  apply (proj1 (@engines_differ_only_in_options
                  (TestJwt.lib 1000) no_env "garbage" with_default None
                  (fun key => match key with
                              | Material _ => eq_refl
                              | Inherited _ => eq_refl
                              end))).
Defined.

(* ================================================================== *)
(** ** More on token extraction *)

(** X9.  The two extractors agree on every request, but for one case:
    where [extractToken] of [auth.js] returns [null] because the request
    carries no token, [_getToken] of the older module throws "No
    authorization token was found". *)
Theorem extractors_agree (req : Request) :
  Legacy._getToken req
  = match Auth.extractToken req with
    | Return (Some t) => Return t
    | Return None => Throw (Unauthorized "No authorization token was found")
    | Throw err => Throw err
    end.
Proof.
  unfold Legacy._getToken, Auth.extractToken, Legacy.header_token.
  destruct (query_token req) as [t|]; simpl.
  - destruct (truthy t); [reflexivity |].
    destruct (authorization_header req) as [a|]; [| reflexivity].
    destruct (truthy a); [| reflexivity].
    destruct (split " " a) as [|s [|c [|x l]]]; try reflexivity.
    destruct (String.eqb s "Bearer"); reflexivity.
  - destruct (authorization_header req) as [a|]; [| reflexivity].
    destruct (truthy a); [| reflexivity].
    destruct (split " " a) as [|s [|c [|x l]]]; try reflexivity.
    destruct (String.eqb s "Bearer"); reflexivity.
Qed.

Lemma split_nonempty (sep : ascii) (s : string) : split sep s <> [].
Proof.
  destruct s as [|c r]; simpl; [discriminate |].
  destruct (Ascii.eqb c sep); [discriminate |].
  destruct (split sep r); discriminate.
Qed.

Lemma split_no_sep (sep : ascii) (s : string) :
  has_char sep s = false -> split sep s = [s].
Proof.
  induction s as [|c r IH]; simpl; [reflexivity |].
  destruct (Ascii.eqb c sep); simpl; [discriminate |].
  intros H. rewrite (IH H). reflexivity.
Qed.

Lemma split_single (sep : ascii) (s b : string) :
  split sep s = [b] -> s = b /\ has_char sep b = false.
Proof.
  revert b. induction s as [|c r IH]; simpl; intros b.
  - intros [= <-]. auto.
  - destruct (Ascii.eqb c sep) eqn:Hc.
    + intros [= _ H]. exfalso. exact (split_nonempty _ _ H).
    + destruct (split sep r) as [|w ws] eqn:Hs; [intros [= <-] |].
      * exfalso. exact (split_nonempty _ _ Hs).
      * intros [= <- ->]. destruct (IH w eq_refl) as [-> Hw].
        simpl. rewrite Hc. auto.
Qed.

Lemma split_pair (sep : ascii) (s a b : string) :
  split sep s = [a; b] ->
  s = (a ++ String sep b)%string /\ has_char sep b = false.
Proof.
  revert a. induction s as [|c r IH]; simpl; intros a.
  - discriminate.
  - destruct (Ascii.eqb_spec c sep) as [->|Hc].
    + intros [= <- H]. destruct (split_single _ _ H) as [-> Hb]. auto.
    + destruct (split sep r) as [|w ws] eqn:Hs; [discriminate |].
      intros [= <- ->]. destruct (IH w eq_refl) as [-> Hb]. auto.
Qed.

(** X10.  For a request without a query token, extraction returns the
    credentials [t] from the [Authorization] header exactly when the
    header is ["Bearer "] followed by [t] and [t] contains no space; an
    empty [t] is returned as such. *)
Theorem bearer_header_round_trip (req : Request) (a t : string) :
  truthy_opt (query_token req) = false ->
  authorization_header req = Some a ->
  (Auth.extractToken req = Return (Some t) <->
   a = ("Bearer " ++ t)%string /\ has_char " " t = false).
Proof.
  intros Hq Ha. unfold Auth.extractToken. rewrite Hq, Ha. split.
  - destruct (truthy a); [| discriminate].
    destruct (split " " a) as [|s [|c [|x l]]] eqn:Hs; try discriminate.
    destruct (String.eqb_spec s "Bearer") as [->|]; [| discriminate].
    intros [= ->]. exact (split_pair _ _ Hs).
  - intros [-> Ht]. simpl. rewrite (split_no_sep _ _ Ht). reflexivity.
Qed.

Lemma bearer_header_round_trip_witness :
  Auth.extractToken (request None (Some "Bearer abc.def")) 
  = Return (Some "abc.def").
Proof.
  apply (proj2 (@bearer_header_round_trip
                  (request None (Some "Bearer abc.def"))
                  "Bearer abc.def" "abc.def" eq_refl eq_refl)).
  split; reflexivity.
Defined.

(* ================================================================== *)
(** ** Building and running the middleware *)

Lemma auth_verify_env
      (J : JwtLib) (env env' : Env) (tok : string) (ks : Keystore)
      (purpose : option string) :
  MAX_JWT_AGE env = MAX_JWT_AGE env' ->
  Auth.verifyTokenAndReturnPayloadAndKid J env tok ks purpose
  = Auth.verifyTokenAndReturnPayloadAndKid J env' tok ks purpose.
Proof.
  intros H. rewrite !auth_verify_engine.
  unfold Auth.jwtOptions. rewrite H. reflexivity.
Qed.

Lemma auth_middleware_env
      (J : JwtLib) (env env' : Env) (ks : Keystore) (b : bool)
      (purpose : option string) (req : Request) (res : Auth.Locals) :
  MAX_JWT_AGE env = MAX_JWT_AGE env' ->
  Auth._authMiddleware J env ks b purpose req res
  = Auth._authMiddleware J env' ks b purpose req res.
Proof.
  intros H. unfold Auth._authMiddleware, Auth.verifyTokenAndReturnKid.
  destruct (Auth.extractToken req) as [[tok|]|e]; try reflexivity.
  destruct (truthy tok); [| reflexivity].
  destruct b; [| reflexivity].
  rewrite (@auth_verify_env J env env' tok ks purpose H). reflexivity.
Qed.

Lemma legacy_middleware_env
      (J : JwtLib) (env env' : Env) (ks : Keystore)
      (req : Request) (res : Legacy.Locals) :
  Legacy._maxAge env = Legacy._maxAge env' ->
  Legacy._authMiddleware J env ks req res
  = Legacy._authMiddleware J env' ks req res.
Proof.
  intros H. unfold Legacy._authMiddleware.
  destruct (Legacy._getToken req) as [tok|e]; [| reflexivity].
  rewrite !legacy_verify_engine. unfold Legacy.options. rewrite H.
  reflexivity.
Qed.

(** X11.  The required-auth policy is evaluated once, when
    [buildMiddleware] runs: the middleware it returns depends on the
    environment at build time only through [required()], and not at all
    when [isRequired] is given; at request time it reads nothing but
    [MAX_JWT_AGE], so a later change of [REQUIRE_AUTH] or [NODE_ENV] has
    no effect.  The older middleware never consults the policy. *)
Theorem policy_is_fixed_when_built
        (J : JwtLib) (build_env build_env' env env' : Env) (ks : Keystore)
        (options : Auth.MiddlewareOptions) (req : Request) :
  (Auth.isRequired_option options = None ->
   Auth.required build_env = Auth.required build_env') ->
  MAX_JWT_AGE env = MAX_JWT_AGE env' ->
  (forall res,
      Auth.buildMiddleware J build_env ks options env req res
      = Auth.buildMiddleware J build_env' ks options env' req res) /\
  (forall res,
      Legacy.buildMiddleware J ks env req res
      = Legacy.buildMiddleware J ks env' req res).
Proof.
  intros Hb He. split; intros res.
  - unfold Auth.buildMiddleware.
    destruct (Auth.isRequired_option options) as [b|].
    + apply auth_middleware_env, He.
    + rewrite (Hb eq_refl). apply auth_middleware_env, He.
  - unfold Legacy.buildMiddleware. apply legacy_middleware_env.
    unfold Legacy._maxAge. rewrite He. reflexivity.
Qed.

Lemma policy_is_fixed_when_built_witness :
  Auth.buildMiddleware (TestJwt.lib 1000) (development None) one_key
                       {| Auth.isRequired_option := None;
                          Auth.purpose_option := None |}
                       (development None) (request None None) Auth.no_locals
  = Auth.buildMiddleware (TestJwt.lib 1000) (development None) one_key
                         {| Auth.isRequired_option := None;
                            Auth.purpose_option := None |}
                         (production (Some "true")) (request None None)
                         Auth.no_locals.
Proof.
  apply (proj1 (@policy_is_fixed_when_built
                  (TestJwt.lib 1000) (development None) (development None)
                  (development None) (production (Some "true")) one_key
                  {| Auth.isRequired_option := None;
                     Auth.purpose_option := None |}
                  (request None None) (fun _ => eq_refl) eq_refl)).
Defined.

(** X12.  A request without any token, through the middleware that
    [buildMiddleware] returns by default and then through
    [errorHandler]: where the policy does not require authentication the
    request proceeds with [res.locals] untouched; where it does, [next]
    receives "JWT is required", which [errorHandler] turns into status
    401 with the error as body, without calling [next].  An error of
    any other name is handed on by [errorHandler] unchanged, the
    response left as it was. *)
Theorem anonymous_request_end_to_end
        (J : JwtLib) (env : Env) (ks : Keystore) (purpose : option string)
        (req : Request) (res : Auth.Locals) (resp : Response) :
  truthy_opt (query_token req) = false ->
  truthy_opt (authorization_header req) = false ->
  (Auth.required env = false ->
   Auth.buildMiddleware J env ks
                        {| Auth.isRequired_option := None;
                           Auth.purpose_option := purpose |} env req res
   = {| Auth.next_error := None; Auth.locals := res;
        Auth.tried_keys := [] |}) /\
  (Auth.required env = true ->
   Auth.buildMiddleware J env ks
                        {| Auth.isRequired_option := None;
                           Auth.purpose_option := purpose |} env req res
   = {| Auth.next_error := Some (Unauthorized "JWT is required");
        Auth.locals := res; Auth.tried_keys := [] |} /\
   Auth.errorHandler (AuthFailure (Unauthorized "JWT is required")) resp
   = ({| status := Some 401;
         errors := Some (AuthFailure (Unauthorized "JWT is required")) |},
      None)) /\
  (forall other,
      failure_name other <> "UnauthorizedError" ->
      Auth.errorHandler other resp = (resp, Some other)).
Proof.
  intros Hq Hh.
  assert (He : Auth.extractToken req = Return None).
  { unfold Auth.extractToken. rewrite Hq.
    destruct (authorization_header req) as [a|]; [| reflexivity].
    simpl in Hh. rewrite Hh. reflexivity. }
  unfold Auth.buildMiddleware, Auth._authMiddleware. simpl. rewrite He.
  refine (conj _ (conj _ _)).
  - intros ->. reflexivity.
  - intros ->. split; reflexivity.
  - intros other Hn. unfold Auth.errorHandler.
    apply String.eqb_neq in Hn. rewrite Hn. reflexivity.
Qed.

Lemma anonymous_request_end_to_end_witness :
  Auth.buildMiddleware (TestJwt.lib 1000) (production None) one_key
                       {| Auth.isRequired_option := None;
                          Auth.purpose_option := None |}
                       (production None) (request None None) Auth.no_locals
  = {| Auth.next_error := Some (Unauthorized "JWT is required");
       Auth.locals := Auth.no_locals; Auth.tried_keys := [] |} /\
  Auth.errorHandler (AuthFailure (Unauthorized "JWT is required")) no_response
  = ({| status := Some 401;
        errors := Some (AuthFailure (Unauthorized "JWT is required")) |},
     None).
Proof.
  apply (proj1 (proj2 (@anonymous_request_end_to_end
                         (TestJwt.lib 1000) (production None) one_key None
                         (request None None) Auth.no_locals no_response
                         eq_refl eq_refl))).
  reflexivity.
Defined.

(** X13.  With [isRequired] false the [auth.js] middleware never calls
    [jwt.verify] and never sets the verifying key id; the only error it
    can pass to [next] is the malformed-header one. *)
Theorem optional_auth_never_verifies
        (J : JwtLib) (env : Env) (ks : Keystore) (purpose : option string)
        (req : Request) (res : Auth.Locals) :
  Auth.tried_keys (Auth._authMiddleware J env ks false purpose req res) = [] /\
  Auth.JWTVerifyingKid
    (Auth.locals (Auth._authMiddleware J env ks false purpose req res))
  = Auth.JWTVerifyingKid res /\
  (Auth.next_error (Auth._authMiddleware J env ks false purpose req res)
   = None \/
   Auth.next_error (Auth._authMiddleware J env ks false purpose req res)
   = Some MalformedAuthorizationHeader).
Proof.
  unfold Auth._authMiddleware.
  destruct (Auth.extractToken req) as [[tok|]|e] eqn:He.
  - destruct (truthy tok); simpl; auto.
  - simpl. auto.
  - simpl. repeat split. right. f_equal.
    unfold Auth.extractToken in He.
    destruct (truthy_opt (query_token req)); [discriminate |].
    destruct (authorization_header req) as [a|]; [| discriminate].
    destruct (truthy a); [| discriminate].
    destruct (split " " a) as [|s [|c [|x l]]]; try congruence.
    destruct (String.eqb s "Bearer"); congruence.
Qed.

(** X14.  With [isRequired] true the [auth.js] middleware calls [next]
    without an error only for a request that carries a non-empty token
    which [jwt.verify] accepted under the key material of a keystore
    entry; the identifier of that entry is what it stores as the
    verifying key id. *)
Theorem required_auth_lets_only_verified_tokens_through
        (J : JwtLib) (env : Env) (ks : Keystore) (purpose : option string)
        (req : Request) (res : Auth.Locals) :
  Auth.next_error (Auth._authMiddleware J env ks true purpose req res) = None ->
  exists tok p k key,
    Auth.extractToken req = Return (Some tok) /\ tok <> EmptyString /\
    In (k, key) ks /\
    jwt_verify J tok key
               (Auth.jwtOptions env (Auth.default_purpose purpose)
                                (jwt_decode J tok)) = inl p /\
    Auth.JWTVerifyingKid
      (Auth.locals (Auth._authMiddleware J env ks true purpose req res))
    = Some k.
Proof.
  unfold Auth._authMiddleware, Auth.verifyTokenAndReturnKid.
  destruct (Auth.extractToken req) as [[tok|]|e]; simpl; try discriminate.
  destruct (truthy tok) eqn:Ht; simpl; [| discriminate].
  destruct (Auth.verifyTokenAndReturnPayloadAndKid J env tok ks purpose)
    as [[[p kopt]|e] tried] eqn:Hv; simpl; [| discriminate].
  intros _. rewrite auth_verify_engine in Hv.
  destruct (engine_sound _ _ _ _ _ Hv) as (k & key & b & -> & Hin & Hok & _).
  exists tok, p, k, key. repeat split; auto.
  destruct tok; [discriminate | discriminate].
Qed.

Lemma required_auth_lets_only_verified_tokens_through_witness :
  exists tok p k key,
    Auth.extractToken (request (Some fresh_labelled) None)
    = Return (Some tok) /\ tok <> EmptyString /\
    In (k, key) same_keys /\
    jwt_verify (TestJwt.lib 1000) tok key
               (Auth.jwtOptions no_env (Auth.default_purpose None)
                                (jwt_decode (TestJwt.lib 1000) tok)) = inl p /\
    Auth.JWTVerifyingKid
      (Auth.locals (Auth._authMiddleware
                      (TestJwt.lib 1000) no_env same_keys true None
                      (request (Some fresh_labelled) None) Auth.no_locals))
    = Some k.
Proof.
  apply (@required_auth_lets_only_verified_tokens_through
           (TestJwt.lib 1000) no_env same_keys None
           (request (Some fresh_labelled) None) Auth.no_locals).
  reflexivity.
Defined.

(** X15.  The older middleware calls [next] without an error only when
    it found a token that [jwt.verify] accepted under the key material
    of a keystore entry, and what it attaches is the payload that
    [jwt.verify] returned. *)
Theorem older_middleware_lets_only_verified_tokens_through
        (J : JwtLib) (env : Env) (ks : Keystore)
        (req : Request) (res : Legacy.Locals) :
  Legacy.next_error (Legacy._authMiddleware J env ks req res) = None ->
  exists tok p k key,
    Legacy._getToken req = Return tok /\
    In (k, key) ks /\
    jwt_verify J tok key (Legacy.options env) = inl p /\
    Legacy.payload_attached
      (Legacy.locals (Legacy._authMiddleware J env ks req res)) = Some p.
Proof.
  unfold Legacy._authMiddleware.
  destruct (Legacy._getToken req) as [tok|e]; simpl; [| discriminate].
  destruct (Legacy.verifyToken J env tok ks) as [[p|e] tried] eqn:Hv; simpl;
    [| discriminate].
  intros _. rewrite legacy_verify_engine in Hv.
  destruct (conclude (engine J tok ks (jwt_decode J tok) (Legacy.options env)))
    as [[[p' kopt]|e] l] eqn:Hc; simpl in Hv; [| discriminate].
  injection Hv as -> ->.
  destruct (engine_sound _ _ _ _ _ Hc) as (k & key & b & _ & Hin & Hok & _).
  exists tok, p, k, key. auto.
Qed.

Lemma older_middleware_lets_only_verified_tokens_through_witness :
  exists tok p k key,
    Legacy._getToken (request (Some fresh_with_exp_hs256) None) = Return tok /\
    In (k, key) one_key /\
    jwt_verify (TestJwt.lib 1000) tok key (Legacy.options no_env) = inl p /\
    Legacy.payload_attached
      (Legacy.locals (Legacy._authMiddleware
                        (TestJwt.lib 1000) no_env one_key
                        (request (Some fresh_with_exp_hs256) None)
                        {| Legacy.payload_attached := None |}))
    = Some p.
Proof.
  apply (@older_middleware_lets_only_verified_tokens_through
           (TestJwt.lib 1000) no_env one_key
           (request (Some fresh_with_exp_hs256) None)
           {| Legacy.payload_attached := None |}).
  reflexivity.
Defined.

(* ================================================================== *)
(** ** More on issuance and on the older module *)

(** X16.  Asking [createToken] for an identifier under which the
    keystore reads nothing usable -- [keystore[kid]] is [undefined], or
    an entry with empty key material; an inherited property does not
    count, being truthy -- is not an error.  Unless the keystore has a
    usable entry named ["undefined"], which is what a missing identifier
    reads, the request is ignored and the token is the one issued when
    no identifier is asked for. *)
Theorem unusable_requested_key_is_ignored
        (J : JwtLib) (P : Payload) (ks : Keystore) (r : string)
        (alg : option string) :
  truthy_value (read (Some r) ks) = false ->
  truthy_value (read None ks) = false ->
  Auth.createToken J P ks (Some r) alg = Auth.createToken J P ks None alg /\
  Legacy.createToken J P ks (Some r) = Legacy.createToken J P ks None.
Proof.
  intros H Hu.
  assert (E : forall id rest,
             truthy_value (read id ks) = false ->
             or_value (read id ks) rest = rest).
  { intros id rest Hf. unfold or_value. rewrite Hf. reflexivity. }
  unfold Auth.createToken, Legacy.createToken, Auth.signing_key.
  rewrite (E (Some r) _ H), (E None _ Hu). split; reflexivity.
Qed.

Lemma unusable_requested_key_is_ignored_witness :
  Auth.createToken (TestJwt.lib 1000) [("sub", JStr "alice")] with_default
                   (Some "k9") None
  = Auth.createToken (TestJwt.lib 1000) [("sub", JStr "alice")] with_default
                     None None.
Proof.
  apply (proj1 (@unusable_requested_key_is_ignored
                  (TestJwt.lib 1000) [("sub", JStr "alice")] with_default
                  "k9" None eq_refl eq_refl)).
Defined.

(** X17.  In the older module too the key named by the token's header
    answers first: if the keystore holds it and [jwt.verify] accepts the
    token under it, [verifyToken] returns the payload and that key is
    the only one tried. *)
Theorem older_kid_has_priority
        (J : JwtLib) (env : Env) (tok : string) (ks : Keystore)
        (d : Decoded) (K : string) (key : KeyMaterial) (p : Payload) :
  wf_keystore ks ->
  jwt_decode J tok = Some d ->
  kid (header d) = Some K ->
  lookup K ks = Some key ->
  jwt_verify J tok key (Legacy.options env) = inl p ->
  Legacy.verifyToken J env tok ks
  = (Return p, [(Material key, Legacy.options env)]).
Proof.
  intros Hwf Hd HK Hl Hv.
  destruct (@wf_entry ks K key Hwf Hl) as [HKne Hkne].
  rewrite legacy_verify_engine.
  rewrite (@engine_kid_target J tok ks (jwt_decode J tok) (Legacy.options env)
             K key p).
  - reflexivity.
  - unfold kid_target.
    rewrite Hd, HK, (truthy_nonempty HKne), (read_own _ _ Hl). simpl.
    rewrite (truthy_nonempty Hkne). reflexivity.
  - exact Hv.
Qed.

Lemma older_kid_has_priority_witness :
  Legacy.verifyToken (TestJwt.lib 1000) no_env fresh_with_exp_hs256 two_keys
  = (Return [("exp", JNum 5000)], [(Material "s3cret", Legacy.options no_env)]).
Proof.
  apply (@older_kid_has_priority
           (TestJwt.lib 1000) no_env fresh_with_exp_hs256 two_keys
           {| header := {| kid := Some "k1" |};
              payload := [("exp", JNum 5000)] |} "k1" "s3cret").
  - concrete_keystore.
  - reflexivity.
  - reflexivity.
  - reflexivity.
  - reflexivity.
Defined.



(** X19.  In the older module a request without any token never
    proceeds, whatever the environment: the middleware verifies nothing
    and passes "No authorization token was found" to [next], and
    [errorHandler] answers it with status 401 and the error as body,
    without calling [next]. *)
Theorem older_anonymous_request_is_refused
        (J : JwtLib) (env : Env) (ks : Keystore) (req : Request)
        (res : Legacy.Locals) (resp : Response) :
  truthy_opt (query_token req) = false ->
  truthy_opt (authorization_header req) = false ->
  Legacy.buildMiddleware J ks env req res
  = {| Legacy.next_error :=
         Some (Unauthorized "No authorization token was found");
       Legacy.locals := res; Legacy.tried_keys := [] |} /\
  Legacy.errorHandler
    (AuthFailure (Unauthorized "No authorization token was found")) resp
  = ({| status := Some 401;
        errors :=
          Some (AuthFailure (Unauthorized "No authorization token was found")) |},
     None).
Proof.
  intros Hq Hh. split; [| reflexivity].
  assert (Hhd : Legacy.header_token req
                = Throw (Unauthorized "No authorization token was found")).
  { unfold Legacy.header_token.
    destruct (authorization_header req) as [a|]; [| reflexivity].
    simpl in Hh. rewrite Hh. reflexivity. }
  unfold Legacy.buildMiddleware, Legacy._authMiddleware, Legacy._getToken.
  destruct (query_token req) as [t|]; simpl in Hq;
    [rewrite Hq |]; rewrite Hhd; reflexivity.
Qed.

Lemma older_anonymous_request_is_refused_witness :
  Legacy.buildMiddleware (TestJwt.lib 1000) one_key (development None)
                         (request None None)
                         {| Legacy.payload_attached := None |}
  = {| Legacy.next_error :=
         Some (Unauthorized "No authorization token was found");
       Legacy.locals := {| Legacy.payload_attached := None |};
       Legacy.tried_keys := [] |}.
Proof.
  apply (proj1 (@older_anonymous_request_is_refused
                  (TestJwt.lib 1000) (development None) one_key
                  (request None None) {| Legacy.payload_attached := None |}
                  no_response eq_refl eq_refl)).
Defined.
